(** * serve: one HTTP/WebSocket entry point over Node, Deno and Bun

    A shallow embedding of the normalization layer of [@online/serve]
    (the adapter module that defines [bunServe], [denoServe], [nodeServe]
    and [serve]) and the properties its specification states about it.

    JavaScript closures that the adapter hands to an engine (event
    listeners, stop procedures) are kept as data, one constructor per
    closure of the source with its captured variables, and run by an
    interpreter that follows the closure's body.  The engines themselves
    (Bun.serve, Deno.serve, node:http and ws) are external: what they decide
    is taken from a [Host] record, what the adapter asks of them is logged
    in the [World]. *)

From Stdlib Require Import ZArith.
From Stdlib.Strings Require Import Byte Ascii.
From stdpp Require Import base option list strings gmap.

Local Open Scope string_scope.
Local Open Scope Z_scope.
Local Open Scope list_scope.
Local Open Scope stdpp_scope.

(** ** JavaScript values, exceptions and effects *)

Module Js.

(** Values of type [any]/[unknown] that cross the adapter unchanged:
    upgrade contexts, frame payloads, error causes. *)
Inductive Value :=
| Undefined
| Bool (b : bool)
| Num (n : Z)
| Str (s : string)
| Bytes (b : list byte)
| Ref (address : nat).          (* an object, known by its identity *)

(** What a [throw] carries. *)
Inductive Thrown :=
| Error (message : string)       (* new Error(message) *)
| TypeError (message : string)   (* raised by the language itself *)
| Raised (v : Value).            (* anything user code throws *)

Inductive Result (T : Type) :=
| Ok (v : T)
| Throw (e : Thrown).
Global Arguments Ok {T} v.
Global Arguments Throw {T} e.

(** State of a promise when it is looked at. *)
Inductive Promise (T : Type) :=
| Pending
| Resolved (v : T)
| Rejected (e : Thrown).
Global Arguments Pending {T}.
Global Arguments Resolved {T} v.
Global Arguments Rejected {T} e.

(** Code that reads and writes a store [S] and may throw. *)
Definition M (S T : Type) : Type := S → Result T * S.

Global Instance M_ret {S} : MRet (M S) := λ T v s, (Ok v, s).
Global Instance M_bind {S} : MBind (M S) := λ A B f m s,
  match m s with
  | (Ok a, s') => f a s'
  | (Throw e, s') => (Throw e, s')
  end.
Global Instance M_throw {S} : MThrow Thrown (M S) := λ T e s, (Throw e, s).

Definition get {S} : M S S := λ s, (Ok s, s).
Definition modify {S} (f : S → S) : M S unit := λ s, (Ok tt, f s).

(** [try { body } catch (error) { handler(error) }] *)
Definition try_catch {S T} (body : M S T) (handler : Thrown → M S T) : M S T :=
  λ s, match body s with
       | (Ok v, s') => (Ok v, s')
       | (Throw e, s') => handler e s'
       end.

(** Run [m] on a component of a larger store. *)
Definition zoom {S W T} (proj : W → S) (inj : S → W → W) (m : M S T) : M W T :=
  λ w, let '(r, s') := m (proj w) in (r, inj s' w).

(** A member of an object literal: either a function that can be called,
    or a plain value stored under that name. *)
Inductive Member (S T : Type) :=
| Method (body : M S T)
| Field (v : T).
Global Arguments Method {S T} body.
Global Arguments Field {S T} v.

(** [obj.name()] : calling a member that is not a function is a
    TypeError. *)
Definition call {S T} (name : string) (m : Member S T) : M S T :=
  match m with
  | Method body => body
  | Field _ => mthrow (TypeError (name +:+ " is not a function"))
  end.

End Js.
Import Js.

(** ** The engines' sockets *)

(** [RuntimeWebSocketReadyState = 0 | 1 | 2 | 3] is a type of the compiler
    only: the adapters cast the number the engine socket reports
    ([denoWebsocket.readyState as RuntimeWebSocketReadyState]) and check
    nothing. *)
Abbreviation RuntimeWebSocketReadyState := Z.

(** Calls an engine socket has received from the adapter. *)
Inductive NativeCall :=
| NSend (data : Value)
| NClose (code : option Z) (reason : option string).

(** An engine-native socket object (Bun's ServerWebSocket, Deno's WebSocket,
    a [ws] WebSocket): the properties the adapter reads, and the calls it
    has forwarded, oldest first.  Data handed to [send] is queued by the
    engine, and the buffered amount counts what is queued and has not gone
    out: [ns_queues data n] is the amount the engine reports once [data] has
    been queued on a socket that reported [n]. *)
Record NativeSocket := {
  ns_readyState : RuntimeWebSocketReadyState;
  ns_binaryType : string;
  ns_bufferedAmount : Z;
  ns_queues : Value → Z → Z;
  ns_calls : list NativeCall;
}.

Global Instance NativeSocket_inhabited : Inhabited NativeSocket :=
  populate {| ns_readyState := 0; ns_binaryType := "";
              ns_bufferedAmount := 0; ns_queues := λ _ n, n; ns_calls := [] |}.

Abbreviation SockId := nat.
Abbreviation Sockets := (gmap nat NativeSocket).

Definition ns_record (c : NativeCall) (s : NativeSocket) : NativeSocket :=
  {| ns_readyState := ns_readyState s; ns_binaryType := ns_binaryType s;
     ns_bufferedAmount := ns_bufferedAmount s; ns_queues := ns_queues s;
     ns_calls := ns_calls s ++ [c] |}.

(** The engine socket after [send(data)]: the call is kept, and the data is
    queued. *)
Definition ns_sent (data : Value) (s : NativeSocket) : NativeSocket :=
  {| ns_readyState := ns_readyState s; ns_binaryType := ns_binaryType s;
     ns_bufferedAmount := ns_queues s data (ns_bufferedAmount s);
     ns_queues := ns_queues s;
     ns_calls := ns_calls s ++ [NSend data] |}.

(** The engine's own [send] and [close] primitives.  Of [close] the model
    keeps the call, with the arguments it was given: the closing handshake
    that follows is the engine's. *)
Definition native_send (ws : SockId) (data : Value) : M Sockets unit :=
  modify (λ σ, <[ws := ns_sent data (σ !!! ws)]> σ).
Definition native_close (ws : SockId) (code : option Z) (reason : option string)
  : M Sockets unit :=
  modify (λ σ, <[ws := ns_record (NClose code reason) (σ !!! ws)]> σ).
Definition native_prop {T} (ws : SockId) (prop : NativeSocket → T) : M Sockets T :=
  σ ← get; mret (prop (σ !!! ws)).

(** ** Canonical socket adapter *)

Record IRuntimeWebSocket := {
  send : Value → M Sockets unit;
  close : option Z → option string → M Sockets unit;
  getBufferedAmount : M Sockets Z;
  binaryType : Member Sockets string;
  readyState : Member Sockets RuntimeWebSocketReadyState;
}.

Definition bunWebsocketToRuntimeSocket (bunWebsocket : SockId) : IRuntimeWebSocket :=
  {| send := λ data, native_send bunWebsocket data;
     close := λ code reason, native_close bunWebsocket code reason;
     getBufferedAmount := native_prop bunWebsocket ns_bufferedAmount;
     readyState := Method (native_prop bunWebsocket ns_readyState);
     binaryType := Method (native_prop bunWebsocket ns_binaryType) |}.

Definition denoWebsocketToRuntimeSocket (denoWebsocket : SockId) : IRuntimeWebSocket :=
  {| send := λ data, native_send denoWebsocket data;
     close := λ code reason, native_close denoWebsocket code reason;
     getBufferedAmount := native_prop denoWebsocket ns_bufferedAmount;
     readyState := Method (native_prop denoWebsocket ns_readyState);
     binaryType := Method (native_prop denoWebsocket ns_binaryType) |}.

(** The [runtimeWs] literal of [nodeServe]'s connection listener.  Its
    [readyState] and [binaryType] members are the values [ws.readyState] and
    [ws.binaryType] had when the literal was evaluated. *)
Definition nodeRuntimeWs (ws : SockId) : M Sockets IRuntimeWebSocket :=
  state ← native_prop ws ns_readyState;
  type ← native_prop ws ns_binaryType;
  mret {| send := λ data, native_send ws data;
          close := λ code reason, native_close ws code reason;
          getBufferedAmount := native_prop ws ns_bufferedAmount;
          readyState := Field state;
          binaryType := Field type |}.

(** ** Data model of the public interface *)

Module WebsocketEventType.
Inductive t := Message | Open | Close | Error.
Definition value (e : t) : string :=
  match e with
  | Message => "message" | Open => "open" | Close => "close" | Error => "error"
  end.
End WebsocketEventType.

Record ITls := { key : string; cert : string }.

Record IWebSocketHandlerOptions := {
  websocket : IRuntimeWebSocket;
  event : WebsocketEventType.t;
  data : option Value;
  error : option Value;
  context : Value;
}.

Record Blob := { blob_parts : list (list byte); blob_type : string }.

(** The bytes a [Blob] holds: its parts, in order. *)
Definition blob_bytes (b : Blob) : list byte := concat (blob_parts b).

(** A canonical [Request], by what it answers when asked for its [url],
    [method], [headers] and body; [req_id] stands for the identity of the
    object. *)
Record Request := {
  req_id : nat;
  url : string;
  method : string;
  headers : gmap string string;
  body : option Blob;
}.

(** A response body stream: what successive [reader.read()] calls give,
    ending in [done] or in a rejection. *)
Record ReadableStream := { chunks : list (list byte); failure : option Thrown }.

Record Response := {
  status : Z;
  statusText : string;
  res_headers : list (string * string);
  res_body : option ReadableStream;
}.

Record NetAddr := { transport : string; addr_hostname : string; addr_port : Z }.

(** Closures over the server that the adapters create as stop procedures. *)
Inductive Callback :=
| stopServer                 (* bunServe:  () => server.stop(true) *)
| denoClose                  (* denoServe: () => server.shutdown() *)
| nodeClose (wss : bool)     (* nodeServe: the [close] member of serverInterface *)
| nodeOnAbort (wss : bool).  (* nodeServe: the listener put on options.signal *)

(** Methods of the engine's server that the adapters pass on as they are. *)
Inductive ServerMethod := server_ref | server_unref.

(** [Symbol.asyncDispose] and [Symbol.dispose] of Deno and Node call
    [this.close()], and are kept as the procedure [close] is. *)
Record IServer := {
  srv_close : Callback;
  addr : NetAddr;
  ref : ServerMethod;
  unref : ServerMethod;
  asyncDispose : Callback;
  dispose : Callback;
}.

(** A listener the adapter puts on an engine socket.  Each one in the source
    is [(payload) => options.wsHandler!({ websocket, event, payload, context })]
    with [websocket] and [context] captured. *)
Record Listener := {
  l_type : string;
  l_event : WebsocketEventType.t;
  l_websocket : IRuntimeWebSocket;
  l_context : Value;
}.

(** What the adapter asks of an engine, as the engine sees it. *)
Inductive EngineCall :=
| Bun_serve (hostname : option string) (port : option Z) (reusePort : option bool)
            (tls : option ITls) (websocket : bool)
| Bun_server_upgrade (request : nat) (data : Value)
| Bun_server_stop (closeActiveConnections : bool)
| Deno_serve (hostname : option string) (port : option Z) (signal : option nat)
             (tls : option ITls) (reusePort : option bool)
| Deno_upgradeWebSocket (request : nat)
| Deno_server_shutdown
| Node_createServer (tls : option ITls)
| Node_WebSocketServer
| Node_server_listen (port : Z) (hostname : option string)
| Node_wss_close
| Node_server_close (callback : bool)
| Node_res_writeHead (res : nat) (status : Z) (statusText : option string)
                     (headers : list (string * string))
| Node_res_write (res : nat) (chunk : list byte)
| Node_res_end (res : nat) (chunk : option string)
| Node_stream_destroy (res : nat) (e : Thrown)
| Node_uncaught (e : Thrown)
| console_error (e : Thrown).

(** Everything the adapter layer reads or writes outside its own locals. *)
Record World := {
  sockets : Sockets;                              (* engine sockets *)
  wsData : gmap nat Value;                        (* Bun: [ws.data] *)
  upgradeData : gmap nat Value;                   (* Node: [req.upgradeData] *)
  stupidDenoResponseMember : gmap nat Response;   (* Deno: property put on the request *)
  listeners : gmap nat (list Listener);           (* listeners on engine sockets *)
  abortListeners : gmap nat (list Callback);      (* listeners on abort signals *)
  calls : list EngineCall;                        (* engine calls, oldest first *)
  delivered : list (SockId * IWebSocketHandlerOptions);
                                                  (* calls of options.wsHandler, oldest first *)
}.

Definition empty_world : World :=
  {| sockets := ∅; wsData := ∅; upgradeData := ∅; stupidDenoResponseMember := ∅;
     listeners := ∅; abortListeners := ∅; calls := []; delivered := [] |}.

Definition set_sockets (σ : Sockets) (w : World) : World :=
  {| sockets := σ; wsData := wsData w; upgradeData := upgradeData w;
     stupidDenoResponseMember := stupidDenoResponseMember w;
     listeners := listeners w; abortListeners := abortListeners w;
     calls := calls w; delivered := delivered w |}.
Definition set_wsData (d : gmap nat Value) (w : World) : World :=
  {| sockets := sockets w; wsData := d; upgradeData := upgradeData w;
     stupidDenoResponseMember := stupidDenoResponseMember w;
     listeners := listeners w; abortListeners := abortListeners w;
     calls := calls w; delivered := delivered w |}.
Definition set_upgradeData (d : gmap nat Value) (w : World) : World :=
  {| sockets := sockets w; wsData := wsData w; upgradeData := d;
     stupidDenoResponseMember := stupidDenoResponseMember w;
     listeners := listeners w; abortListeners := abortListeners w;
     calls := calls w; delivered := delivered w |}.
Definition set_stupidDenoResponseMember (d : gmap nat Response) (w : World) : World :=
  {| sockets := sockets w; wsData := wsData w; upgradeData := upgradeData w;
     stupidDenoResponseMember := d;
     listeners := listeners w; abortListeners := abortListeners w;
     calls := calls w; delivered := delivered w |}.
Definition set_listeners (l : gmap nat (list Listener)) (w : World) : World :=
  {| sockets := sockets w; wsData := wsData w; upgradeData := upgradeData w;
     stupidDenoResponseMember := stupidDenoResponseMember w;
     listeners := l; abortListeners := abortListeners w;
     calls := calls w; delivered := delivered w |}.
Definition set_abortListeners (l : gmap nat (list Callback)) (w : World) : World :=
  {| sockets := sockets w; wsData := wsData w; upgradeData := upgradeData w;
     stupidDenoResponseMember := stupidDenoResponseMember w;
     listeners := listeners w; abortListeners := l;
     calls := calls w; delivered := delivered w |}.
Definition set_calls (c : list EngineCall) (w : World) : World :=
  {| sockets := sockets w; wsData := wsData w; upgradeData := upgradeData w;
     stupidDenoResponseMember := stupidDenoResponseMember w;
     listeners := listeners w; abortListeners := abortListeners w;
     calls := c; delivered := delivered w |}.
Definition set_delivered (d : list (SockId * IWebSocketHandlerOptions)) (w : World) : World :=
  {| sockets := sockets w; wsData := wsData w; upgradeData := upgradeData w;
     stupidDenoResponseMember := stupidDenoResponseMember w;
     listeners := listeners w; abortListeners := abortListeners w;
     calls := calls w; delivered := d |}.

(** The engine is asked for something. *)
Definition engine (c : EngineCall) : M World unit :=
  modify (λ w, set_calls (calls w ++ [c]) w).

Record IHandlerOptions := {
  request : Request;
  upgradeToWebSocket : Value → M World bool;
}.

Record IServeOptions := {
  handler : IHandlerOptions → M World Response;
  port : option Z;
  hostname : option string;
  signal : option nat;
  tls : option ITls;
  reusePort : option bool;
  wsHandler : option (IWebSocketHandlerOptions → M Sockets unit);
}.

(** What lies outside the adapter and decides for it: the platform's URL
    parser and the engines' answers.  The engines are taken to create and
    bind their listeners without failing. *)
Record Host := {
  (** [new URL(s)]: the parsed URL, or the TypeError it throws *)
  URL_new : string → Result string;
  (** [new Request(url, { method, headers })]: the TypeError with which the
      constructor refuses its arguments, if it does (a URL that holds
      credentials, the methods CONNECT, TRACE and TRACK, a header that is
      not well-formed) *)
  Request_refuses : string → string → gmap string string → option Thrown;
  (** [server.upgrade(request, { data })] of Bun, given whether a [websocket]
      handler object was configured: the socket it will open ([true]), none
      ([false], for a request that does not ask for an upgrade), or an
      exception (as when no [websocket] object was configured) *)
  Bun_upgrade : bool → Request → Result (option SockId);
  (** [Deno.upgradeWebSocket(request)]: the socket and the 101 response, or
      the exception for a request that cannot be upgraded *)
  Deno_upgrade : Request → Result (SockId * Response);
  (** the address Bun and Deno report for the listener *)
  bound : NetAddr;
  (** [server.address()] of Node: [None] for [null] or a pipe name *)
  Node_address : option (string * Z);
  (** Node, for the response known as [res]: how many of the chunks pushed
      into the Readable that feeds it had been written to the response when
      the Readable was destroyed (under backpressure the Readable buffers
      what it is given, and drops it when it is destroyed) *)
  Node_flushed : nat → nat;
  (** the reply Bun.serve and Deno.serve give when the callback they were
      configured with throws or rejects (the adapter configures no error
      callback of its own) *)
  onError : Thrown → Response;
}.

Global Instance Value_inhabited : Inhabited Value := populate Undefined.

(** Events an engine raises on one of its sockets. *)
Inductive SocketEvent :=
| EvOpen
| EvMessage (payload : Value)
| EvClose
| EvError (cause : Value).

Definition event_type (ev : SocketEvent) : string :=
  match ev with
  | EvOpen => "open" | EvMessage _ => "message" | EvClose => "close" | EvError _ => "error"
  end.

Definition event_payload (ev : SocketEvent) : Value :=
  match ev with
  | EvMessage payload => payload
  | EvError cause => cause
  | EvOpen | EvClose => Undefined
  end.

(** Notifications of a Node request stream. *)
Inductive StreamEvent :=
| OnData (chunk : list byte)
| OnEnd
| OnError (e : Thrown).

(** A Node [IncomingMessage], with the notifications it goes on to emit. *)
Record IncomingMessage := {
  im_id : nat;
  im_method : string;
  im_url : string;
  im_headers : gmap string string;
  im_stream : list StreamEvent;
}.

(** What an engine does next, while connections are up: it raises an event
    on one of its sockets, or a further connection comes up. *)
Inductive Stimulus :=
| Raise (ws : SockId) (ev : SocketEvent)
| Connect (req : IncomingMessage) (request : Request) (ws : SockId) (data : Value).

Inductive Runtime := Node | Deno | Bun | Unknown | Browser.

(** The three runtimes that have an engine. *)
Inductive Engine := OnNode | OnDeno | OnBun.

(** ** Calls shared by the adapters *)

(** [for (const x of xs) f(x)] *)
Fixpoint for_each {S A} (f : A → M S unit) (xs : list A) : M S unit :=
  match xs with
  | [] => mret tt
  | x :: xs => f x;; for_each f xs
  end.

(** [target.addEventListener(type, listener)] and [ws.on(type, listener)] *)
Definition addEventListener (ws : SockId) (l : Listener) : M World unit :=
  modify (λ w, set_listeners (<[ws := (listeners w !!! ws) ++ [l]]> (listeners w)) w).

(** [options.signal.addEventListener("abort", listener)] *)
Definition signal_addEventListener (s : nat) (c : Callback) : M World unit :=
  modify (λ w, set_abortListeners (<[s := (abortListeners w !!! s) ++ [c]]> (abortListeners w)) w).

(** Bodies of the stop procedures. *)
Definition run_callback (c : Callback) : M World unit :=
  match c with
  | stopServer => engine (Bun_server_stop true)
  | denoClose => engine Deno_server_shutdown
  | nodeClose wss =>
      (if wss then engine Node_wss_close else mret tt);;
      engine (Node_server_close true)
  | nodeOnAbort wss =>
      (if wss then engine Node_wss_close else mret tt);;
      engine (Node_server_close false)
  end.

(** The signal aborts: the listeners the adapter added to it run in the order
    they were added.  What an engine that was itself handed the signal does
    on abort happens inside the engine and is no call of the adapter. *)
Definition abort (s : nat) : M World unit :=
  w ← get; for_each run_callback (abortListeners w !!! s).

(** [await p] inside an async function whose remainder is [k]: a promise that
    never settles leaves the function suspended. *)
Definition await {T} (p : Promise T) (k : T → M World unit) : M World unit :=
  match p with
  | Pending => mret tt
  | Resolved v => k v
  | Rejected e => mthrow e
  end.

Definition settle {T} (p q : Promise T) : Promise T :=
  match p with Pending => q | _ => p end.

Section Adapters.
Context (host : Host) (options : IServeOptions).

Definition has_wsHandler : bool :=
  if wsHandler options is Some _ then true else false.

(** [options.wsHandler!(o)], for the connection of engine socket [ws]. *)
Definition call_wsHandler (ws : SockId) (o : IWebSocketHandlerOptions) : M World unit :=
  match wsHandler options with
  | None => mthrow (TypeError "options.wsHandler is not a function")
  | Some h =>
      modify (λ w, set_delivered (delivered w ++ [(ws, o)]) w);;
      zoom sockets set_sockets (h o)
  end.

Definition run_listener (ws : SockId) (payload : Value) (l : Listener) : M World unit :=
  call_wsHandler ws
    {| websocket := l_websocket l;
       event := l_event l;
       data := if l_event l is WebsocketEventType.Message then Some payload else None;
       error := if l_event l is WebsocketEventType.Error then Some payload else None;
       context := l_context l |}.

(** An engine socket emits [ev]: the listeners added for that type run, in
    the order they were added. *)
Definition dispatchEvent (ws : SockId) (ev : SocketEvent) : M World unit :=
  w ← get;
  for_each (run_listener ws (event_payload ev))
           (filter (λ l, l_type l = event_type ev) (listeners w !!! ws)).

(** *** Bun *)

(** [server.upgrade(request, { data })]: on success Bun keeps [data] as the
    [data] property of the socket it opens. *)
Definition server_upgrade (request : Request) (data : Value) : M World bool :=
  engine (Bun_server_upgrade (req_id request) data);;
  match Bun_upgrade host has_wsHandler request with
  | Ok (Some ws) => modify (λ w, set_wsData (<[ws := data]> (wsData w)) w);; mret true
  | Ok None => mret false
  | Throw e => mthrow e
  end.

Definition bun_upgradeToWebSocket (request : Request) : Value → M World bool :=
  λ data, server_upgrade request data;; mret true.

Definition bun_fetch (request : Request) : M World Response :=
  handler options
    {| request := request; upgradeToWebSocket := bun_upgradeToWebSocket request |}.

Record BunWebSocketHandler := {
  bun_message : SockId → Value → M World unit;
  bun_open : SockId → M World unit;
  bun_close : SockId → M World unit;
}.

Definition bun_dispatch (ws : SockId) (ev : WebsocketEventType.t) (message : option Value)
  : M World unit :=
  w ← get;
  call_wsHandler ws
    {| websocket := bunWebsocketToRuntimeSocket ws;
       event := ev; data := message; error := None;
       context := wsData w !!! ws |}.

Definition bun_websocket : option BunWebSocketHandler :=
  if has_wsHandler then
    Some {| bun_message := λ ws message,
              bun_dispatch ws WebsocketEventType.Message (Some message);
            bun_open := λ ws, bun_dispatch ws WebsocketEventType.Open None;
            bun_close := λ ws, bun_dispatch ws WebsocketEventType.Close None |}
  else None.

(** Bun raises [ev] on socket [ws]: it calls the member of the configured
    [websocket] object that has the event's name, if there is one. *)
Definition Bun_socket_event (ws : SockId) (ev : SocketEvent) : M World unit :=
  match bun_websocket with
  | None => mret tt
  | Some members =>
      match ev with
      | EvOpen => bun_open members ws
      | EvMessage message => bun_message members ws message
      | EvClose => bun_close members ws
      | EvError _ => mret tt
      end
  end.

Definition bunServe : M World (Promise IServer) :=
  engine (Bun_serve (hostname options) (port options) (reusePort options)
                    (tls options) has_wsHandler);;
  (if signal options is Some s then signal_addEventListener s stopServer else mret tt);;
  mret (Resolved {| srv_close := stopServer;
                    addr := {| addr_hostname := addr_hostname (bound host);
                               addr_port := addr_port (bound host);
                               transport := "tcp" |};
                    ref := server_ref; unref := server_unref;
                    asyncDispose := stopServer;
                    dispose := stopServer |}).

(** *** Deno *)

Definition Deno_upgradeWebSocket_call (request : Request) : M World (SockId * Response) :=
  engine (Deno_upgradeWebSocket (req_id request));;
  match Deno_upgrade host request with
  | Ok r => mret r
  | Throw e => mthrow e
  end.

(** [Object.defineProperty(request, "stupidDenoResponseMember",
    { value, enumerable: false })]: the property is neither writable nor
    configurable, so defining it again with another object throws. *)
Definition defineProperty_stupidDenoResponseMember (request : Request) (value : Response)
  : M World unit :=
  w ← get;
  match stupidDenoResponseMember w !! req_id request with
  | Some _ => mthrow (TypeError "Cannot redefine property: stupidDenoResponseMember")
  | None =>
      modify (λ w, set_stupidDenoResponseMember
                     (<[req_id request := value]> (stupidDenoResponseMember w)) w)
  end.

Definition deno_upgradeToWebSocket (request : Request) : Value → M World bool :=
  λ data,
    '(denoSocket, stupidDenoResponseMember) ← Deno_upgradeWebSocket_call request;
    let socket := denoWebsocketToRuntimeSocket denoSocket in
    defineProperty_stupidDenoResponseMember request stupidDenoResponseMember;;
    addEventListener denoSocket
      {| l_type := "open"; l_event := WebsocketEventType.Open;
         l_websocket := socket; l_context := data |};;
    addEventListener denoSocket
      {| l_type := "message"; l_event := WebsocketEventType.Message;
         l_websocket := socket; l_context := data |};;
    addEventListener denoSocket
      {| l_type := "close"; l_event := WebsocketEventType.Close;
         l_websocket := socket; l_context := data |};;
    mret true.

Definition deno_handler (request : Request) : M World Response :=
  response ← handler options
    {| request := request; upgradeToWebSocket := deno_upgradeToWebSocket request |};
  w ← get;
  mret (default response (stupidDenoResponseMember w !! req_id request)).

Definition denoServe : M World (Promise IServer) :=
  engine (Deno_serve (hostname options) (port options) (signal options)
                     (tls options) (reusePort options));;
  mret (Resolved {| srv_close := denoClose;
                    addr := bound host;
                    ref := server_ref; unref := server_unref;
                    asyncDispose := denoClose;
                    dispose := denoClose |}).

(** *** Node *)

(** The template literal handed to [new URL]. *)
Definition request_url (req : IncomingMessage) : string :=
  (if tls options is Some _ then "https" else "http")
    +:+ "://" +:+ default "undefined" (im_headers req !! "host") +:+ im_url req.

(** [headers["content-type"] || "application/octet-stream"] *)
Definition content_type (headers : gmap string string) : string :=
  match headers !! "content-type" with
  | None | Some "" => "application/octet-stream"
  | Some type => type
  end.

(** [new Request(url, { method, headers, body })], for the message known as
    [id].  The constructor may refuse its arguments.  Otherwise the request
    has the URL, the method (Node's parser hands methods on in upper case,
    which the constructor keeps) and the body it was given, and the headers
    it was given, to which a body [Blob] that has a type adds a content-type
    header when they hold none. *)
Definition Request_new (id : nat) (url method : string) (headers : gmap string string)
    (body : option Blob) : Result Request :=
  match Request_refuses host url method headers with
  | Some e => Throw e
  | None =>
      Ok {| req_id := id; url := url; method := method;
            headers :=
              match body with
              | Some blob =>
                  if bool_decide (headers !! "content-type" = None ∧ blob_type blob ≠ "")
                  then <["content-type" := blob_type blob]> headers
                  else headers
              | None => headers
              end;
            body := body |}
  end.

(** The listeners [incomingMessageToRequest] puts on the request stream, run
    over its notifications: [chunks] is the array being filled, [p] the
    promise, which only its first settlement changes.  When the constructor
    throws inside the "end" listener nothing catches the exception: the
    promise is left as it is, and the process ends on the uncaught
    exception. *)
Fixpoint receive (make : list (list byte) → Result Request) (stream : list StreamEvent)
    (chunks : list (list byte)) (p : Promise Request) : Promise Request :=
  match stream with
  | [] => p
  | OnData chunk :: stream => receive make stream (chunks ++ [chunk]) p
  | OnEnd :: stream =>
      match make chunks with
      | Ok request => receive make stream chunks (settle p (Resolved request))
      | Throw _ => p
      end
  | OnError e :: stream => receive make stream chunks (settle p (Rejected e))
  end.

(** An exception thrown inside the executor of [new Promise] rejects the
    promise. *)
Definition incomingMessageToRequest (req : IncomingMessage) : Promise Request :=
  let method := im_method req in
  match URL_new host (request_url req) with
  | Throw e => Rejected e
  | Ok url =>
      let headers := im_headers req in
      if bool_decide (method ≠ "GET" ∧ method ≠ "HEAD") then
        receive (λ chunks,
                   Request_new (im_id req) url method headers
                     (Some {| blob_parts := chunks;
                              blob_type := content_type headers |}))
                (im_stream req) [] Pending
      else
        match Request_new (im_id req) url method headers None with
        | Ok request => Resolved request
        | Throw e => Rejected e
        end
  end.

(** The listener of [wss.on("connection", (ws, request) => ...)]. *)
Definition node_on_connection (ws : SockId) (request : nat) : M World unit :=
  runtimeWs ← zoom sockets set_sockets (nodeRuntimeWs ws);
  w ← get;
  let context := default Undefined (upgradeData w !! request) in
  call_wsHandler ws
    {| websocket := runtimeWs; event := WebsocketEventType.Open;
       data := None; error := None; context := context |};;
  addEventListener ws
    {| l_type := "message"; l_event := WebsocketEventType.Message;
       l_websocket := runtimeWs; l_context := context |};;
  addEventListener ws
    {| l_type := "close"; l_event := WebsocketEventType.Close;
       l_websocket := runtimeWs; l_context := context |};;
  addEventListener ws
    {| l_type := "error"; l_event := WebsocketEventType.Error;
       l_websocket := runtimeWs; l_context := context |}.

Definition node_upgradeToWebSocket (wss : bool) (req : IncomingMessage)
  : Value → M World bool :=
  λ data,
    if negb wss then mthrow (Error "WebSocket server not initialized")
    else
      modify (λ w, set_upgradeData (<[im_id req := data]> (upgradeData w)) w);;
      mret true.

(** [stream.pipe(res)] for the Readable that drains [response.body].  Each
    chunk read from the body is pushed into the Readable, which hands it to
    the response with one [res.write]; a chunk of no bytes is dropped by
    [push].  When the body has been read to its end the pipe ends the
    response.  When reading fails, the Readable is destroyed with the error:
    what it still buffered is lost, the response is left open, and the
    "error" the Readable emits finds no listener, which makes it an uncaught
    exception. *)
Definition stream_pipe (res : nat) (body : ReadableStream) : M World unit :=
  let pushed := filter (λ chunk, chunk ≠ []) (chunks body) in
  match failure body with
  | None =>
      for_each (λ chunk, engine (Node_res_write res chunk)) pushed;;
      engine (Node_res_end res None)
  | Some e =>
      for_each (λ chunk, engine (Node_res_write res chunk))
               (take (Node_flushed host res) pushed);;
      engine (Node_stream_destroy res e);;
      engine (Node_uncaught e)
  end.

(** The listener of [server.on("request", async (req, res) => ...)]; [res]
    is known by the identity of its request. *)
Definition node_on_request (wss : bool) (req : IncomingMessage) : M World unit :=
  let res := im_id req in
  try_catch
    (await (incomingMessageToRequest req) (λ request,
       response ← handler options
         {| request := request;
            upgradeToWebSocket := node_upgradeToWebSocket wss req |};
       engine (Node_res_writeHead res (status response) (Some (statusText response))
                                  (res_headers response));;
       match res_body response with
       | Some body => stream_pipe res body
       | None => engine (Node_res_end res None)
       end))
    (λ error,
       engine (console_error error);;
       engine (Node_res_writeHead res 500 None []);;
       engine (Node_res_end res (Some "Internal Server Error"))).

(** The callback given to [server.listen]. *)
Definition node_listening (wss : bool) : M World (Promise IServer) :=
  match Node_address host with
  | None => engine (Node_uncaught (Error "Invalid address"));; mret Pending
  | Some (address, port) =>
      mret (Resolved {| srv_close := nodeClose wss;
                        addr := {| transport := "tcp"; addr_hostname := address;
                                   addr_port := port |};
                        ref := server_ref; unref := server_unref;
                        asyncDispose := nodeClose wss;
                        dispose := nodeClose wss |})
  end.

Definition nodeServe : M World (Promise IServer) :=
  engine (Node_createServer (tls options));;
  let wss := has_wsHandler in
  (if wss then engine Node_WebSocketServer else mret tt);;
  engine (Node_server_listen (default 0 (port options)) (hostname options));;
  (if signal options is Some s then signal_addEventListener s (nodeOnAbort wss)
   else mret tt);;
  node_listening wss.

(** *** Dispatcher *)

(** [serve], given what [getRuntime()] answers. *)
Definition serve (runtime : Runtime) : M World (Promise IServer) :=
  match runtime with
  | Node => nodeServe
  | Deno => denoServe
  | Bun => bunServe
  | Unknown => mthrow (Error "Could not determine runtime.")
  | Browser => mthrow (Error "There is not serve for the browser.")
  end.

(** *** The engines, side by side *)

Definition runtime_of (e : Engine) : Runtime :=
  match e with OnNode => Node | OnDeno => Deno | OnBun => Bun end.

(** An engine raises [ev] on socket [ws]. *)
Definition socket_event (e : Engine) (ws : SockId) (ev : SocketEvent) : M World unit :=
  match e with
  | OnBun => Bun_socket_event ws ev
  | OnDeno | OnNode => dispatchEvent ws ev
  end.

(** The capability the HTTP handler is given on engine [e], in the exchange
    that Node knows as [req] and the other engines as [request]. *)
Definition upgradeToWebSocket_on (e : Engine) (req : IncomingMessage) (request : Request)
  : Value → M World bool :=
  match e with
  | OnNode => node_upgradeToWebSocket has_wsHandler req
  | OnDeno => deno_upgradeToWebSocket request
  | OnBun => bun_upgradeToWebSocket request
  end.

(** Engine [e] opens socket [ws] for the upgrade of [request].  On Deno and
    Bun that is what the engine answers to the upgrade call of the
    capability.  On Node the capability asks the engine nothing: it is the
    [ws] server, if there is one, that takes upgrade requests. *)
Definition opens (e : Engine) (request : Request) (ws : SockId) : Prop :=
  match e with
  | OnNode => has_wsHandler = true
  | OnDeno => ∃ response, Deno_upgrade host request = Ok (ws, response)
  | OnBun => Bun_upgrade host has_wsHandler request = Ok (Some ws)
  end.

(** A connection comes up on socket [ws].  On Deno and Bun the handler,
    called with the upgrade request, upgrades it with context [data]; the
    engine then raises "open" on the socket by itself, as the first of its
    socket events.  On Node the handler has no part in it: [node:http] hands
    a request that asks for an upgrade to the "upgrade" listeners of the
    server, where the [ws] server has put its own, and does not emit
    "request" for it; the [ws] server negotiates and emits "connection"
    with the socket and the message [req] of the upgrade request. *)
Definition establish (e : Engine) (req : IncomingMessage) (request : Request)
    (ws : SockId) (data : Value) : M World unit :=
  match e with
  | OnNode => node_on_connection ws (im_id req)
  | OnDeno | OnBun => upgradeToWebSocket_on e req request data;; mret tt
  end.

(** The context the connection has once it is up: on Deno and Bun what the
    handler upgraded with, on Node what [req.upgradeData] holds when
    "connection" is emitted. *)
Definition connection_context (e : Engine) (req : IncomingMessage) (data : Value)
    (w : World) : Value :=
  match e with
  | OnNode => default Undefined (upgradeData w !! im_id req)
  | OnDeno | OnBun => data
  end.

Definition stimulate (e : Engine) (s : Stimulus) : M World unit :=
  match s with
  | Raise ws ev => socket_event e ws ev
  | Connect req request ws data => establish e req request ws data
  end.

(** The engine goes through [ss], one after the other; a listener that
    throws does not stop the engine. *)
Fixpoint drive (e : Engine) (ss : list Stimulus) (w : World) : World :=
  match ss with
  | [] => w
  | s :: ss => drive e ss (stimulate e s w).2
  end.

(** The stimulus does not bring up a connection on socket [ws]: engines
    give every connection a socket of its own. *)
Definition apart (e : Engine) (ws : SockId) (s : Stimulus) : Prop :=
  match s with
  | Raise _ _ => True
  | Connect req request ws' data =>
      match e with
      | OnNode => ws' ≠ ws
      | OnDeno => ∀ socket response,
          Deno_upgrade host request = Ok (socket, response) → socket ≠ ws
      | OnBun => ∀ socket,
          Bun_upgrade host has_wsHandler request = Ok (Some socket) → socket ≠ ws
      end
  end.

(** Node emits "request". *)
Definition Node_exchange (req : IncomingMessage) : M World unit :=
  node_on_request has_wsHandler req.

(** Bun and Deno answer an exchange with what the configured callback
    resolves to, and with their own error reply when it throws or rejects. *)
Definition Bun_exchange (request : Request) : M World Response :=
  try_catch (bun_fetch request) (λ e, mret (onError host e)).
Definition Deno_exchange (request : Request) : M World Response :=
  try_catch (deno_handler request) (λ e, mret (onError host e)).

End Adapters.

(** The canonical socket an engine's adapter builds for engine socket [ws]. *)
Definition runtime_socket (e : Engine) (ws : SockId) : M Sockets IRuntimeWebSocket :=
  match e with
  | OnBun => mret (bunWebsocketToRuntimeSocket ws)
  | OnDeno => mret (denoWebsocketToRuntimeSocket ws)
  | OnNode => nodeRuntimeWs ws
  end.

(** A call of the socket handler, if it is for connection [ws], carries
    [ctx]. *)
Definition carries (ws : SockId) (ctx : Value) (d : SockId * IWebSocketHandlerOptions)
  : Prop :=
  d.1 = ws → context d.2 = ctx.

(** The invariant of a connection that carries [ctx]: Bun keeps it as the
    socket's [data]; on Deno and Node every listener on the socket has
    captured it. *)
Definition attached (e : Engine) (ws : SockId) (ctx : Value) (w : World) : Prop :=
  match e with
  | OnBun => wsData w !!! ws = ctx
  | OnDeno | OnNode => Forall (λ l, l_context l = ctx) (listeners w !!! ws)
  end.

(** What a call of the socket handler was about. *)
Definition summary (d : SockId * IWebSocketHandlerOptions)
  : SockId * WebsocketEventType.t * option Value * option Value * Value :=
  (d.1, event d.2, data d.2, error d.2, context d.2).

(** Status lines written to the Node response [res], oldest first. *)
Definition statuses_written (res : nat) (cs : list EngineCall) : list Z :=
  omap (λ c, match c with
             | Node_res_writeHead r status _ _ =>
                 if bool_decide (r = res) then Some status else None
             | _ => None
             end) cs.

(** What a call does to the listener or to the WebSocket server, leaving out
    the completion callback it may have been given. *)
Inductive Teardown :=
| StopBun (closeActiveConnections : bool)
| ShutdownDeno
| CloseWss
| CloseServer.

Definition teardown (c : EngineCall) : option Teardown :=
  match c with
  | Bun_server_stop closeActiveConnections => Some (StopBun closeActiveConnections)
  | Deno_server_shutdown => Some ShutdownDeno
  | Node_wss_close => Some CloseWss
  | Node_server_close _ => Some CloseServer
  | _ => None
  end.

(** The engine calls a stop procedure makes. *)
Definition callback_calls (c : Callback) : list EngineCall :=
  match c with
  | stopServer => [Bun_server_stop true]
  | denoClose => [Deno_server_shutdown]
  | nodeClose wss => (if wss then [Node_wss_close] else []) ++ [Node_server_close true]
  | nodeOnAbort wss => (if wss then [Node_wss_close] else []) ++ [Node_server_close false]
  end.

(** The teardown operations that running [m] in [w] performs. *)
Definition teardown_of (m : M World unit) (w : World) : list Teardown :=
  omap teardown (drop (length (calls w)) (calls (m w).2)).

(** The user's handler is called in an exchange on engine [e]. *)
Definition handler_call (host : Host) (options : IServeOptions) (e : Engine)
    (req : IncomingMessage) (request : Request) : M World Response :=
  handler options
    {| request := request;
       upgradeToWebSocket := upgradeToWebSocket_on host options e req request |}.

(** The same configuration with another handler. *)
Definition with_handler (h : IHandlerOptions → M World Response) (options : IServeOptions)
  : IServeOptions :=
  {| handler := h; port := port options; hostname := hostname options;
     signal := signal options; tls := tls options; reusePort := reusePort options;
     wsHandler := wsHandler options |}.

(** The chunks of the data notifications in a stretch of a request stream. *)
Definition data_chunks (stream : list StreamEvent) : list (list byte) :=
  omap (λ ev, if ev is OnData chunk then Some chunk else None) stream.

Definition is_data (ev : StreamEvent) : Prop := ∃ chunk, ev = OnData chunk.

(** ** Sample hosts, handlers and configurations *)

Definition ok_response : Response :=
  {| status := 200; statusText := "OK"; res_headers := []; res_body := None |}.
Definition switching_response : Response :=
  {| status := 101; statusText := ""; res_headers := []; res_body := None |}.
Definition error_response : Response :=
  {| status := 500; statusText := "Internal Server Error"; res_headers := [];
     res_body := None |}.

(** A host whose engines accept every upgrade and open socket 7 for it; Bun
    throws when asked to upgrade with no [websocket] object configured.  Its
    [Request] constructor refuses the method TRACE; its network takes
    everything as it is written. *)
Definition sample_host : Host :=
  {| URL_new := λ s, Ok s;
     Request_refuses := λ _ method _,
       if bool_decide (method = "TRACE")
       then Some (TypeError "'TRACE' HTTP method is unsupported.") else None;
     Bun_upgrade := λ websocket _,
       if websocket then Ok (Some 7%nat)
       else Throw (TypeError "To enable websocket support, set the websocket object in Bun.serve({})");
     Deno_upgrade := λ _, Ok (7%nat, switching_response);
     bound := {| transport := "tcp"; addr_hostname := "0.0.0.0"; addr_port := 8083 |};
     Node_address := Some ("::", 8083);
     Node_flushed := λ _, 1%nat;
     onError := λ _, error_response |}.

(** [handler: () => new Response("Hello")] *)
Definition hello_handler : IHandlerOptions → M World Response :=
  λ _, mret ok_response.

(** The handler of the "WebSocket connection" test: upgrade with a context,
    answer 101 on success and 500 otherwise. *)
Definition upgrading_handler (ctx : Value) : IHandlerOptions → M World Response :=
  λ o, upgraded ← upgradeToWebSocket o ctx;
       if upgraded : bool then mret switching_response else mret error_response.

(** A handler that throws. *)
Definition failing_handler : IHandlerOptions → M World Response :=
  λ _, mthrow (Error "boom").

(** A socket handler that answers every message. *)
Definition replying_wsHandler : IWebSocketHandlerOptions → M Sockets unit :=
  λ o, if event o is WebsocketEventType.Message
       then send (websocket o) (Str "Message received!")
       else mret tt.

Definition sample_options (h : IHandlerOptions → M World Response)
    (ws : option (IWebSocketHandlerOptions → M Sockets unit)) (sig : option nat)
  : IServeOptions :=
  {| handler := h; port := Some 8083; hostname := None; signal := sig;
     tls := None; reusePort := None; wsHandler := ws |}.

Definition get_request : Request :=
  {| req_id := 1; url := "http://localhost:8083/"; method := "GET";
     headers := {["host" := "localhost:8083"]}; body := None |}.

Definition post_message : IncomingMessage :=
  {| im_id := 1; im_method := "POST"; im_url := "/users";
     im_headers := {["host" := "localhost:8083"]};
     im_stream := [OnData [x7b; x22]; OnData [x22; x7d]; OnEnd] |}.

(** The request the bridge makes of it. *)
Definition posted_request : Request :=
  {| req_id := 1; url := "http://localhost:8083/users"; method := "POST";
     headers := <["content-type" := "application/octet-stream"]>
                  {["host" := "localhost:8083"]};
     body := Some {| blob_parts := [[x7b; x22]; [x22; x7d]];
                     blob_type := "application/octet-stream" |} |}.

Definition get_message : IncomingMessage :=
  {| im_id := 1; im_method := "GET"; im_url := "/";
     im_headers := {["host" := "localhost:8083"]}; im_stream := [OnEnd] |}.

(** What the socket handler is called with when engine [e] raises [ev] on a
    connection that is up: the event tag with its [data] and [error], or
    nothing where the adapter has no listener for the event. *)
Definition dispatched (e : Engine) (ev : SocketEvent)
  : option (WebsocketEventType.t * option Value * option Value) :=
  match ev, e with
  | EvOpen, (OnDeno | OnBun) => Some (WebsocketEventType.Open, None, None)
  | EvOpen, OnNode => None
  | EvMessage payload, _ => Some (WebsocketEventType.Message, Some payload, None)
  | EvClose, _ => Some (WebsocketEventType.Close, None, None)
  | EvError cause, OnNode => Some (WebsocketEventType.Error, None, Some cause)
  | EvError _, (OnDeno | OnBun) => None
  end.

(** The listeners a connection that is up has on its socket, by event type,
    tag and captured context, in the order the adapter adds them. *)
Definition listener_shape (e : Engine) (ctx : Value)
  : list (string * WebsocketEventType.t * Value) :=
  match e with
  | OnDeno => [("open", WebsocketEventType.Open, ctx);
               ("message", WebsocketEventType.Message, ctx);
               ("close", WebsocketEventType.Close, ctx)]
  | OnNode => [("message", WebsocketEventType.Message, ctx);
               ("close", WebsocketEventType.Close, ctx);
               ("error", WebsocketEventType.Error, ctx)]
  | OnBun => []
  end.

(** The connection on socket [ws] is up with context [ctx]. *)
Definition wired (e : Engine) (ws : SockId) (ctx : Value) (w : World) : Prop :=
  match e with
  | OnBun => wsData w !!! ws = ctx
  | OnDeno | OnNode =>
      (λ l, (l_type l, l_event l, l_context l)) <$> (listeners w !!! ws)
      = listener_shape e ctx
  end.

(** The same message with another run of stream notifications. *)
Definition with_stream (stream : list StreamEvent) (req : IncomingMessage)
  : IncomingMessage :=
  {| im_id := im_id req; im_method := im_method req; im_url := im_url req;
     im_headers := im_headers req; im_stream := stream |}.

(** The bytes written to the Node response [res], in the order written. *)
Definition written_bytes (res : nat) (cs : list EngineCall) : list byte :=
  concat (omap (λ c, match c with
                     | Node_res_write r chunk =>
                         if bool_decide (r = res) then Some chunk else None
                     | _ => None
                     end) cs).

(** The engine a call is addressed to; [console.error] is no engine's. *)
Definition engine_of_call (c : EngineCall) : option Engine :=
  match c with
  | Bun_serve _ _ _ _ _ | Bun_server_upgrade _ _ | Bun_server_stop _ => Some OnBun
  | Deno_serve _ _ _ _ _ | Deno_upgradeWebSocket _ | Deno_server_shutdown => Some OnDeno
  | Node_createServer _ | Node_WebSocketServer | Node_server_listen _ _
  | Node_wss_close | Node_server_close _ | Node_res_writeHead _ _ _ _
  | Node_res_write _ _ | Node_res_end _ _ | Node_stream_destroy _ _
  | Node_uncaught _ => Some OnNode
  | console_error _ => None
  end.

(** A handler that first upgrades with [ctx] and then answers according to
    what the capability returned, as the handlers of the tests and of the
    examples do. *)
Definition upgrade_then (ctx : Value) (respond : bool → Response)
  : IHandlerOptions → M World Response :=
  λ o, upgraded ← upgradeToWebSocket o ctx; mret (respond upgraded).

(** ** A caller: the to-do service of examples/crud.example.ts *)

(** A JavaScript [Map] with string keys: entries in insertion order, a key at
    most once. *)
Fixpoint Map_get {V} (k : string) (m : list (string * V)) : option V :=
  match m with
  | [] => None
  | (k', v) :: m => if decide (k' = k) then Some v else Map_get k m
  end.

(** [m.set(k, v)]: an existing key keeps its place, a new one goes last. *)
Fixpoint Map_set {V} (k : string) (v : V) (m : list (string * V)) : list (string * V) :=
  match m with
  | [] => [(k, v)]
  | (k', v') :: m => if decide (k' = k) then (k, v) :: m else (k', v') :: Map_set k v m
  end.

(** [m.delete(k)], with the boolean it returns. *)
Fixpoint Map_delete {V} (k : string) (m : list (string * V)) : bool * list (string * V) :=
  match m with
  | [] => (false, [])
  | (k', v') :: m =>
      if decide (k' = k) then (true, m)
      else let '(found, m') := Map_delete k m in (found, (k', v') :: m')
  end.

(** [s.split("/")] *)
Fixpoint split_slash (s : string) : list string :=
  match s with
  | EmptyString => [EmptyString]
  | String c rest =>
      if Ascii.eqb c "/"%char then EmptyString :: split_slash rest
      else match split_slash rest with
           | segment :: segments => String c segment :: segments
           | [] => [String c EmptyString]
           end
  end.

(** A value read out of parsed JSON; arrays and objects are kept as their
    text. *)
Inductive Any :=
| ANull
| ABool (b : bool)
| ANumber (n : Z)
| AString (s : string)
| ACompound (json : string).

Record Todo := {
  todo_id : string;
  todo_title : option Any;         (* [None] is [undefined] *)
  todo_completed : option Any;
  todo_createdAt : string;
}.

(** What [req.json()] resolved to, as far as the service looks at it: [null],
    whose properties cannot be read, or a value with its [title] and
    [completed] properties ([None] where it has none). *)
Inductive ParsedBody :=
| BodyNull
| BodyValue (title completed : option Any).

(** The data a response is made of, before [JSON.stringify]. *)
Inductive Payload :=
| PTodo (todo : Todo)
| PTodos (all : list Todo)
| PError (error : string)
| PMessage (message : string).

Record JsonResponse := {
  jr_status : Z;
  jr_headers : list (string * string);
  jr_data : option Payload;
}.

(** The module's state: the [todos] map, and what went to [console.error]. *)
Record TodoStore := {
  todos : list (string * Todo);
  console : list Thrown;
}.

(** One request as the handler sees it, with what the platform gives it
    while it runs: the parsed path, the parsed body, a UUID and the time. *)
Record TodoRequest := {
  tr_method : string;
  tr_pathname : Result string;     (* [new URL(request.url).pathname] *)
  tr_json : Result ParsedBody;     (* [await req.json()] *)
  tr_uuid : string;                (* [crypto.randomUUID()] *)
  tr_now : string;                 (* [new Date().toISOString()] *)
}.

Definition of_result {S T} (r : Result T) : M S T :=
  match r with Ok v => mret v | Throw e => mthrow e end.

Definition parseBody (r : TodoRequest) : M TodoStore ParsedBody :=
  try_catch (of_result (tr_json r)) (λ _, mthrow (Error "Invalid JSON body")).

(** [body.title] and [body.completed] *)
Definition body_prop (name : string) (pick : option Any * option Any → option Any)
    (b : ParsedBody) : M TodoStore (option Any) :=
  match b with
  | BodyNull =>
      mthrow (TypeError ("Cannot read properties of null (reading '" +:+ name +:+ "')"))
  | BodyValue title completed => mret (pick (title, completed))
  end.

(** [a ?? b] *)
Definition nullish_or (a b : option Any) : option Any :=
  match a with
  | None | Some ANull => b
  | Some _ => a
  end.

Definition jsonResponse (data : Payload) (status : Z) : JsonResponse :=
  {| jr_status := status;
     jr_headers := [("Content-Type", "application/json");
                    ("Access-Control-Allow-Origin", "*")];
     jr_data := Some data |}.

Definition preflight_response : JsonResponse :=
  {| jr_status := 200;
     jr_headers := [("Access-Control-Allow-Origin", "*");
                    ("Access-Control-Allow-Methods", "GET, POST, PUT, DELETE, OPTIONS");
                    ("Access-Control-Allow-Headers", "Content-Type")];
     jr_data := None |}.

Definition set_todos (f : list (string * Todo) → list (string * Todo)) (s : TodoStore)
  : TodoStore :=
  {| todos := f (todos s); console := console s |}.

(** An [id] that is neither [undefined] nor the empty string. *)
Definition truthy (id : option string) : option string :=
  match id with
  | None | Some "" => None
  | Some id => Some id
  end.

Definition todo_handler (r : TodoRequest) : M TodoStore JsonResponse :=
  if bool_decide (tr_method r = "OPTIONS") then mret preflight_response
  else
    path ← of_result (tr_pathname r);
    let id := truthy (split_slash path !! 2%nat) in
    try_catch
      (if bool_decide (tr_method r = "POST" ∧ path = "/todos") then
         body ← parseBody r;
         title ← body_prop "title" fst body;
         let todo := {| todo_id := tr_uuid r; todo_title := title;
                        todo_completed := Some (ABool false);
                        todo_createdAt := tr_now r |} in
         modify (set_todos (Map_set (todo_id todo) todo));;
         mret (jsonResponse (PTodo todo) 201)
       else if bool_decide (tr_method r = "GET" ∧ path = "/todos") then
         s ← get; mret (jsonResponse (PTodos (snd <$> todos s)) 200)
       else
         match id with
         | Some id =>
             if bool_decide (tr_method r = "GET") then
               s ← get;
               match Map_get id (todos s) with
               | None => mret (jsonResponse (PError "Todo not found") 404)
               | Some todo => mret (jsonResponse (PTodo todo) 200)
               end
             else if bool_decide (tr_method r = "PUT") then
               s ← get;
               match Map_get id (todos s) with
               | None => mret (jsonResponse (PError "Todo not found") 404)
               | Some todo =>
                   body ← parseBody r;
                   title ← body_prop "title" fst body;
                   completed ← body_prop "completed" snd body;
                   let updatedTodo :=
                     {| todo_id := todo_id todo;
                        todo_title := nullish_or title (todo_title todo);
                        todo_completed := nullish_or completed (todo_completed todo);
                        todo_createdAt := todo_createdAt todo |} in
                   modify (set_todos (Map_set id updatedTodo));;
                   mret (jsonResponse (PTodo updatedTodo) 200)
               end
             else if bool_decide (tr_method r = "DELETE") then
               s ← get;
               let '(deleted, rest) := Map_delete id (todos s) in
               modify (set_todos (λ _, rest));;
               if deleted then mret (jsonResponse (PMessage "Todo deleted successfully") 200)
               else mret (jsonResponse (PError "Todo not found") 404)
             else mret (jsonResponse (PError "Not found") 404)
         | None => mret (jsonResponse (PError "Not found") 404)
         end)
      (λ error,
         modify (λ s, {| todos := todos s; console := console s ++ [error] |});;
         mret (jsonResponse (PError "Internal server error") 500)).

(** The requests of the example's client functions. *)
Definition todo_request (method path : string) (json : Result ParsedBody)
    (uuid now : string) : TodoRequest :=
  {| tr_method := method; tr_pathname := Ok path; tr_json := json;
     tr_uuid := uuid; tr_now := now |}.

(** The status and the data of the answer, if the handler gave one. *)
Definition answered (run : Result JsonResponse * TodoStore) : option (Z * option Payload) :=
  match run.1 with
  | Ok response => Some (jr_status response, jr_data response)
  | Throw _ => None
  end.

(** The store's keys are distinct and every to-do is kept under its id. *)
Definition todos_consistent (s : TodoStore) : Prop :=
  NoDup (todos s).*1 ∧ Forall (λ kv, todo_id kv.2 = kv.1) (todos s).

(** No "/" in the string. *)
Fixpoint slash_free (s : string) : Prop :=
  match s with
  | EmptyString => True
  | String c rest => Ascii.eqb c "/"%char = false ∧ slash_free rest
  end.

(** A store with one to-do, as after the example's first request. *)
Definition sample_todo : Todo :=
  {| todo_id := "u-1"; todo_title := Some (AString "Learn TypeScript");
     todo_completed := Some (ABool false);
     todo_createdAt := "2025-01-01T00:00:00.000Z" |}.

Definition sample_store : TodoStore :=
  {| todos := [("u-1", sample_todo)]; console := [] |}.

(** [new Response(null, { status: 500 })] *)
Definition status_handler : IHandlerOptions → M World Response :=
  λ _, mret {| status := 500; statusText := ""; res_headers := []; res_body := None |}.

(** The handler of the "Streaming response" test: a body of two chunks. *)
Definition streaming_handler : IHandlerOptions → M World Response :=
  λ _, mret {| status := 200; statusText := "";
               res_headers := [("content-type", "text/plain");
                               ("transfer-encoding", "chunked")];
               res_body := Some {| chunks := [[x63; x31; x0a]; [x63; x32; x0a]];
                                   failure := None |} |}.

(** A handler whose response body fails after its first chunk. *)
Definition broken_stream_handler : IHandlerOptions → M World Response :=
  λ _, mret {| status := 200; statusText := ""; res_headers := [];
               res_body := Some {| chunks := [[x63; x31; x0a]];
                                   failure := Some (Error "read failed") |} |}.

(** The bytes a payload takes on the wire, for text of one byte per
    character. *)
Definition payload_size (data : Value) : Z :=
  match data with
  | Str s => Z.of_nat (String.length s)
  | Bytes b => Z.of_nat (length b)
  | _ => 0
  end.

(** An engine socket that is open, on a network that takes nothing for the
    time being. *)
Definition open_socket : NativeSocket :=
  {| ns_readyState := 1; ns_binaryType := "nodebuffer"; ns_bufferedAmount := 0;
     ns_queues := λ data n, n + payload_size data; ns_calls := [] |}.

(** ** Properties *)

(** Unfold the monad and the store accessors, then compute. *)
Ltac run :=
  cbv [mbind mret mthrow M_bind M_ret M_throw get modify zoom try_catch await
       engine addEventListener signal_addEventListener] in *;
  cbn in *.

Lemma bind_run {S A B} (m : M S A) (f : A → M S B) (s : S) :
  (m ≫= f) s = match m s with
               | (Ok a, s') => f a s'
               | (Throw e, s') => (Throw e, s')
               end.
Proof. reflexivity. Qed.

(** *** Scenarios of the test suite *)

(** "Custom Status Code", on Node. *)
Example node_custom_status_code :
  calls (Node_exchange sample_host (sample_options status_handler None None)
           get_message empty_world).2
  = [Node_res_writeHead 1 500 (Some "") []; Node_res_end 1 None].
Proof. reflexivity. Qed.

(** "Streaming response", on Node: the chunks are written in order, then the
    response is ended. *)
Example node_streaming_response :
  calls (Node_exchange sample_host (sample_options streaming_handler None None)
           get_message empty_world).2
  = [Node_res_writeHead 1 200 (Some "")
       [("content-type", "text/plain"); ("transfer-encoding", "chunked")];
     Node_res_write 1 [x63; x31; x0a]; Node_res_write 1 [x63; x32; x0a];
     Node_res_end 1 None].
Proof. reflexivity. Qed.

(** A chunk of no bytes in the body is not written. *)
Example node_empty_chunk_is_not_written :
  let body := {| chunks := [[x63; x31]; []; [x63; x32]]; failure := None |} in
  let handler : IHandlerOptions → M World Response :=
    λ _, mret {| status := 200; statusText := ""; res_headers := [];
                 res_body := Some body |} in
  calls (Node_exchange sample_host (sample_options handler None None)
           get_message empty_world).2
  = [Node_res_writeHead 1 200 (Some "") [];
     Node_res_write 1 [x63; x31]; Node_res_write 1 [x63; x32];
     Node_res_end 1 None].
Proof. reflexivity. Qed.

(** "WebSocket connection", on Deno: the handler upgrades and the engine's
    101 response replaces the one the handler returns. *)
Example deno_upgrade_response :
  (Deno_exchange sample_host
     (sample_options (upgrading_handler (Str "test context")) (Some replying_wsHandler) None)
     get_request empty_world).1
  = Ok switching_response.
Proof. reflexivity. Qed.

(** "WebSocket readyState transitions", on Deno and Bun: [readyState()] is 1
    while the engine socket is open and 3 once it has closed. *)
Example deno_bun_readyState_transitions :
  let closed := {| ns_readyState := 3; ns_binaryType := "blob";
                   ns_bufferedAmount := 0; ns_queues := λ _ n, n; ns_calls := [] |} in
  let read e σ :=
    match (call "readyState" (readyState (denoWebsocketToRuntimeSocket 7%nat)) σ).1,
          (call "readyState" (readyState (bunWebsocketToRuntimeSocket 7%nat)) σ).1 with
    | Ok deno, Ok bun => [deno; bun]
    | _, _ => e
    end in
  read [] ({[7%nat := open_socket]} : Sockets) = [1; 1]
  ∧ read [] ({[7%nat := closed]} : Sockets) = [3; 3].
Proof. split; reflexivity. Qed.

(** The socket handler of the tests answers a message through the canonical
    socket: the engine socket receives the [send]. *)
Example bun_message_is_answered :
  let options := sample_options hello_handler (Some replying_wsHandler) None in
  let w := set_sockets {[7%nat := open_socket]} empty_world in
  ns_calls (sockets (socket_event options OnBun 7%nat
                       (EvMessage (Str "Hello WebSocket")) w).2 !!! 7%nat)
  = [NSend (Str "Message received!")].
Proof. reflexivity. Qed.

(** *** Dispatcher *)

Section Dispatcher.
Context (host : Host) (options : IServeOptions).

Lemma engine_calls c w : calls (engine c w).2 = calls w ++ [c].
Proof. reflexivity. Qed.

(** Each engine implementation starts by asking its engine for a server. *)
Lemma engine_serve_asks (e : Engine) (w : World) :
  ∃ c cs, calls (serve host options (runtime_of e) w).2 = calls w ++ c :: cs.
Proof.
  destruct e; cbn [runtime_of serve].
  - unfold nodeServe, node_listening.
    destruct (has_wsHandler options), (signal options), (Node_address host) as [[? ?]|];
      run; rewrite <- ?app_assoc; eauto.
  - unfold denoServe. run. eauto.
  - unfold bunServe. destruct (signal options); run; eauto.
Qed.

Lemma engine_serve_changes_world (e : Engine) (w : World) :
  (serve host options (runtime_of e) w).2 ≠ w.
Proof.
  destruct (engine_serve_asks e w) as (c & cs & Hc). intros Heq.
  rewrite Heq in Hc. apply (f_equal length) in Hc.
  rewrite length_app in Hc. cbn in Hc. lia.
Qed.

(** C6. When the detected runtime is unknown, [serve] throws
    "Could not determine runtime." and leaves the world as it was: no
    server is created and nothing is asked of any engine, whereas each of
    [nodeServe], [denoServe] and [bunServe] would have changed it. *)
Theorem serve_unknown_runtime_fails_fast (w : World) :
  serve host options Unknown w = (Throw (Error "Could not determine runtime."), w)
  ∧ ∀ e, (serve host options Unknown w).2 ≠ (serve host options (runtime_of e) w).2.
Proof.
  split; [reflexivity|].
  intros e Heq. cbn in Heq. by apply (engine_serve_changes_world e w).
Qed.

(** C10. When the detected runtime is the browser, [serve] throws
    "There is not serve for the browser.", which is not the error of the
    unknown runtime, and leaves the world as it was: no engine
    implementation runs. *)
Theorem serve_browser_unsupported (w : World) :
  serve host options Browser w
    = (Throw (Error "There is not serve for the browser."), w)
  ∧ (serve host options Browser w).1 ≠ (serve host options Unknown w).1
  ∧ ∀ e, (serve host options Browser w).2 ≠ (serve host options (runtime_of e) w).2.
Proof.
  split; [reflexivity|]. split; [discriminate|].
  intros e Heq. cbn in Heq. by apply (engine_serve_changes_world e w).
Qed.

End Dispatcher.

(** *** Canonical socket adapter *)

Section SocketAdapter.

(** Every adapter builds its socket without touching the engine socket. *)
Lemma runtime_socket_builds e ws (σ : Sockets) :
  ∃ socket, runtime_socket e ws σ = (Ok socket, σ).
Proof. destruct e; eexists; reflexivity. Qed.

(** On Bun and Deno [readyState()] and [binaryType()] read the engine socket
    at the time of the call, whatever it was when the adapter was built. *)
Lemma bun_deno_members_read_current e ws (σ σ' : Sockets) socket :
  e ≠ OnNode →
  runtime_socket e ws σ = (Ok socket, σ) →
  call "readyState" (readyState socket) σ' = (Ok (ns_readyState (σ' !!! ws)), σ')
  ∧ call "binaryType" (binaryType socket) σ' = (Ok (ns_binaryType (σ' !!! ws)), σ').
Proof.
  intros Hne Hbuild. destruct e; [done| |]; cbn in Hbuild;
    injection Hbuild as <-; split; reflexivity.
Qed.

(** C3.  On Node the claim fails: the [readyState] and [binaryType] members
    of the socket built by the connection listener are the values the engine
    socket had at that moment, not functions, so [websocket.readyState()] and
    [websocket.binaryType()] throw a TypeError for every connection. *)
Theorem node_readyState_is_not_a_function ws (σ : Sockets) :
  ∃ socket,
    runtime_socket OnNode ws σ = (Ok socket, σ)
    ∧ readyState socket = Field (ns_readyState (σ !!! ws))
    ∧ binaryType socket = Field (ns_binaryType (σ !!! ws))
    ∧ ∀ σ' : Sockets,
        call "readyState" (readyState socket) σ'
          = (Throw (TypeError "readyState is not a function"), σ')
        ∧ call "binaryType" (binaryType socket) σ'
          = (Throw (TypeError "binaryType is not a function"), σ').
Proof. eexists. repeat split. Qed.

(** C8.  On every engine, [close(code, reason)] of the canonical socket makes
    exactly one call, the engine socket's own [close], with the same code
    and the same reason, and touches no other socket.  An argument that is
    omitted is omitted in that call too: the adapter puts no code in its
    place, so the 1000 that the doc comment of [IRuntimeWebSocket.close]
    names as the default is nowhere supplied, and with both omitted the
    engine is asked to close without a code. *)
Theorem close_forwards_code_and_reason e ws (σ : Sockets) :
  ∃ socket,
    runtime_socket e ws σ = (Ok socket, σ)
    ∧ (∀ (σ' : Sockets) code reason,
         ∃ σ'' : Sockets,
           close socket code reason σ' = (Ok tt, σ'')
           ∧ ns_calls (σ'' !!! ws) = ns_calls (σ' !!! ws) ++ [NClose code reason]
           ∧ (∀ other, other ≠ ws → σ'' !! other = σ' !! other))
    ∧ ∀ σ' : Sockets,
        last (ns_calls ((close socket None None σ').2 !!! ws)) = Some (NClose None None).
Proof.
  destruct (runtime_socket_builds e ws σ) as [socket Hs].
  exists socket. split; [done|].
  assert (∀ (σ' : Sockets) code reason,
            close socket code reason σ'
            = (Ok tt, <[ws := ns_record (NClose code reason) (σ' !!! ws)]> σ')) as Hclose.
  { intros σ' code reason. destruct e; cbn in Hs; injection Hs as <-; reflexivity. }
  split.
  - intros σ' code reason.
    exists (<[ws := ns_record (NClose code reason) (σ' !!! ws)]> σ').
    rewrite Hclose. split; [done|]. split.
    + by rewrite lookup_total_insert_eq.
    + intros other Hne. by rewrite lookup_insert_ne.
  - intros σ'. rewrite Hclose. cbn [snd]. rewrite lookup_total_insert_eq. cbn.
    by rewrite last_snoc.
Qed.

End SocketAdapter.

(** *** Request bridge of Node *)

Section Bridge.
Context (host : Host) (options : IServeOptions).

Lemma receive_settled make stream chunks (p : Promise Request) :
  p ≠ Pending → receive make stream chunks p = p.
Proof.
  revert chunks p. induction stream as [|[chunk| |e] stream IH]; intros chunks p Hp;
    cbn [receive]; [done|by apply IH|..].
  - destruct (make chunks); [|done]. rewrite IH; destruct p; done.
  - rewrite IH; destruct p; done.
Qed.

Lemma receive_resolved make stream chunks request :
  receive make stream chunks Pending = Resolved request →
  ∃ before after,
    stream = before ++ OnEnd :: after
    ∧ Forall is_data before
    ∧ make (chunks ++ data_chunks before) = Ok request.
Proof.
  revert chunks. induction stream as [|[chunk| |e] stream IH]; intros chunks H;
    cbn [receive settle] in H.
  - discriminate.
  - destruct (IH _ H) as (before & after & -> & Hdata & Hmake).
    exists (OnData chunk :: before), after. split; [done|]. split.
    + constructor; [by exists chunk|done].
    + cbn. by rewrite <- app_assoc in Hmake.
  - destruct (make chunks) as [made|err] eqn:Hmake; [|discriminate].
    rewrite receive_settled in H by done. injection H as <-.
    exists [], stream. cbn. by rewrite app_nil_r.
  - rewrite receive_settled in H by done. discriminate.
Qed.

Lemma receive_until_end make before after chunks :
  Forall is_data before →
  receive make (before ++ OnEnd :: after) chunks Pending
    = match make (chunks ++ data_chunks before) with
      | Ok request => Resolved request
      | Throw _ => Pending
      end.
Proof.
  revert chunks. induction before as [|ev before IH]; intros chunks Hdata.
  - cbn. rewrite app_nil_r. destruct (make chunks); [|done].
    by rewrite receive_settled.
  - inversion Hdata as [|? ? [chunk ->] Hrest]; subst. cbn.
    rewrite IH by done. by rewrite <- app_assoc.
Qed.

(** What a message's headers become in the request made of it with a body:
    a message that names no content type gets the type of the [Blob]. *)
Lemma request_headers_with_body id href verb hs parts request :
  Request_new host id href verb hs
    (Some {| blob_parts := parts; blob_type := content_type hs |}) = Ok request →
  headers request
  = if hs !! "content-type" is Some _ then hs
    else <["content-type" := "application/octet-stream"]> hs.
Proof.
  unfold Request_new, content_type.
  destruct (Request_refuses host href verb hs); [done|]. intros [= <-]. cbn.
  destruct (hs !! "content-type") as [[|a type]|] eqn:Htype.
  - by rewrite bool_decide_eq_false_2 by (by intros [? _]).
  - by rewrite bool_decide_eq_false_2 by (by intros [? _]).
  - by rewrite bool_decide_eq_true_2.
Qed.

(** C7, as the code has it.  When the URL parses and the [Request]
    constructor accepts the message, the Node bridge does construct a
    request, at once for GET and HEAD and at the end notification for any
    other method.  The request has the method of the incoming message; its
    URL is what [new URL] makes of scheme://host/path, the scheme being https
    exactly when TLS is configured and http otherwise.  For GET and HEAD it
    has no body and the headers of the message.  For any other method its
    body holds, in order, the chunks of all the data notifications that came
    before the end notification; its headers are those of the message if
    they name a content type, and otherwise those of the message with the
    content type "application/octet-stream", which the request takes from
    its body. *)
Theorem incomingMessageToRequest_faithful req href :
  URL_new host (request_url options req) = Ok href →
  Request_refuses host href (im_method req) (im_headers req) = None →
  (∃ scheme,
     request_url options req
     = scheme +:+ "://" +:+ default "undefined" (im_headers req !! "host") +:+ im_url req
     ∧ (scheme = "https" ↔ tls options ≠ None)
     ∧ (scheme = "http" ↔ tls options = None))
  ∧ (im_method req = "GET" ∨ im_method req = "HEAD" →
     incomingMessageToRequest host options req
     = Resolved {| req_id := im_id req; url := href; method := im_method req;
                   headers := im_headers req; body := None |})
  ∧ (im_method req ≠ "GET" → im_method req ≠ "HEAD" →
     ∀ before after,
       im_stream req = before ++ OnEnd :: after → Forall is_data before →
       ∃ request blob,
         incomingMessageToRequest host options req = Resolved request
         ∧ method request = im_method req
         ∧ url request = href
         ∧ body request = Some blob
         ∧ blob_bytes blob = concat (data_chunks before)
         ∧ headers request
           = if im_headers req !! "content-type" is Some _ then im_headers req
             else <["content-type" := "application/octet-stream"]> (im_headers req)).
Proof.
  intros Hurl Haccepts. split; [|split].
  - unfold request_url. destruct (tls options) as [t|].
    + exists "https". split; [done|]. split; split; done.
    + exists "http". split; [done|]. split; split; done.
  - intros Hm. unfold incomingMessageToRequest, Request_new.
    rewrite Hurl, Haccepts, bool_decide_eq_false_2; [done|].
    intros [? ?]. by destruct Hm.
  - intros Hget Hhead before after Hstream Hdata. unfold incomingMessageToRequest.
    rewrite Hurl, bool_decide_eq_true_2, Hstream, receive_until_end by done.
    cbn [app].
    destruct (Request_new host (im_id req) href (im_method req) (im_headers req)
                (Some {| blob_parts := data_chunks before;
                         blob_type := content_type (im_headers req) |}))
      as [request|err] eqn:Hmake.
    + pose proof (request_headers_with_body _ _ _ _ _ _ Hmake) as Hheaders.
      unfold Request_new in Hmake. rewrite Haccepts in Hmake. injection Hmake as <-.
      eexists _, _. repeat split. exact Hheaders.
    + unfold Request_new in Hmake. by rewrite Haccepts in Hmake.
Qed.

End Bridge.

Lemma incomingMessageToRequest_faithful_witness :
  ∃ request blob,
    incomingMessageToRequest sample_host (sample_options hello_handler None None)
      post_message = Resolved request
    ∧ method request = "POST"
    ∧ url request = "http://localhost:8083/users"
    ∧ body request = Some blob
    ∧ blob_bytes blob = concat (data_chunks [OnData [x7b; x22]; OnData [x22; x7d]])
    ∧ headers request
      = if im_headers post_message !! "content-type" is Some _
        then im_headers post_message
        else <["content-type" := "application/octet-stream"]> (im_headers post_message).
Proof.
  destruct (incomingMessageToRequest_faithful sample_host
              (sample_options hello_handler None None) post_message
              "http://localhost:8083/users" eq_refl eq_refl) as (_ & _ & Hpost).
  apply (Hpost ltac:(discriminate) ltac:(discriminate)
               [OnData [x7b; x22]; OnData [x22; x7d]] [] eq_refl).
  repeat constructor; by eexists.
Defined.

(** The claim as it is written fails on a message that names no content
    type: the request made of it has a header the message does not have. *)
Lemma incomingMessageToRequest_adds_content_type :
  incomingMessageToRequest sample_host (sample_options hello_handler None None)
    post_message = Resolved posted_request
  ∧ im_headers post_message !! "content-type" = None
  ∧ headers posted_request !! "content-type" = Some "application/octet-stream"
  ∧ headers posted_request ≠ im_headers post_message.
Proof.
  split; [reflexivity|]. split; [reflexivity|]. split; [reflexivity|].
  intros H. apply (f_equal (λ m, m !! "content-type")) in H. discriminate H.
Qed.

(** *** Upgrade negotiator *)

Section Upgrade.
Context (host : Host) (options : IServeOptions).

(** A call of the socket handler is logged, if there is a handler, and
    touches neither the listeners nor the data Bun keeps for its sockets. *)
Lemma call_wsHandler_world ws o w :
  let w' := (call_wsHandler options ws o w).2 in
  (delivered w' = delivered w ∨ delivered w' = delivered w ++ [(ws, o)])
  ∧ listeners w' = listeners w ∧ wsData w' = wsData w.
Proof.
  unfold call_wsHandler. destruct (wsHandler options) as [h|]; run.
  - destruct (h o (sockets w)) as [[[]|e] σ]; cbn; auto.
  - auto.
Qed.

Lemma run_listener_world ws payload l w :
  let w' := (run_listener options ws payload l w).2 in
  (∃ extra, delivered w' = delivered w ++ extra
            ∧ Forall (λ d, d.1 = ws ∧ context d.2 = l_context l) extra)
  ∧ listeners w' = listeners w ∧ wsData w' = wsData w.
Proof.
  unfold run_listener.
  match goal with |- context [call_wsHandler options ws ?o w] =>
    pose proof (call_wsHandler_world ws o w) as (Hd & Hl & Hb) end.
  cbv zeta in *. split; [|done]. destruct Hd as [->| ->].
  - exists []. by rewrite app_nil_r.
  - eexists. split; [done|]. by repeat constructor.
Qed.

Lemma run_listeners_world ws payload (P : Value → Prop) ls :
  Forall (λ l, P (l_context l)) ls →
  ∀ w, let w' := (for_each (run_listener options ws payload) ls w).2 in
       (∃ extra, delivered w' = delivered w ++ extra
                 ∧ Forall (λ d, d.1 = ws ∧ P (context d.2)) extra)
       ∧ listeners w' = listeners w ∧ wsData w' = wsData w.
Proof.
  induction 1 as [|l ls Hl Hls IH]; intros w; cbn [for_each]; cbv zeta.
  - cbn. split; [|done]. exists []. by rewrite app_nil_r.
  - rewrite bind_run.
    pose proof (run_listener_world ws payload l w) as ((x1 & H1 & Hall1) & Hl1 & Hb1).
    assert (Forall (λ d, d.1 = ws ∧ P (context d.2)) x1) as Hall1'.
    { eapply Forall_impl; [exact Hall1|]. intros d [? ->]. done. }
    destruct (run_listener options ws payload l w) as [[[]|e] w1];
      cbn in H1, Hl1, Hb1; cbv beta iota.
    + destruct (IH w1) as ((x2 & H2 & Hall2) & Hl2 & Hb2). cbv zeta in *.
      rewrite Hl2, Hb2, H2, H1. split; [|done].
      exists (x1 ++ x2). rewrite <- app_assoc. split; [done|]. by apply Forall_app.
    + cbn. split; [|done]. by exists x1.
Qed.

(** An event on any socket leaves the context of connection [ws] attached,
    and what it has the socket handler called with, if it is for [ws],
    carries that context. *)
Lemma socket_event_world e ws ctx ws' ev w :
  attached e ws ctx w →
  let w' := (socket_event options e ws' ev w).2 in
  (∃ extra, delivered w' = delivered w ++ extra ∧ Forall (carries ws ctx) extra)
  ∧ attached e ws ctx w'.
Proof.
  assert (∀ w, Forall (λ l, l_context l = ctx) (listeners w !!! ws) →
    let w' := (dispatchEvent options ws' ev w).2 in
    (∃ extra, delivered w' = delivered w ++ extra ∧ Forall (carries ws ctx) extra)
    ∧ Forall (λ l, l_context l = ctx) (listeners w' !!! ws)) as Hdispatch.
  { intros w0 Hall. unfold dispatchEvent. rewrite bind_run. cbn [get].
    destruct (run_listeners_world ws' (event_payload ev) (λ v, ws' = ws → v = ctx)
                (filter (λ l, l_type l = event_type ev) (listeners w0 !!! ws'))) with (w := w0)
      as ((extra & Hextra & Hcarries) & Hl & _).
    - apply Forall_forall. intros l [_ Hin]%list_elem_of_filter ->.
      by eapply Forall_forall in Hall.
    - cbv zeta. rewrite Hl. split; [|done]. exists extra. split; [done|].
      eapply Forall_impl; [exact Hcarries|]. intros d [Hd Hctx] Hws. apply Hctx.
      by rewrite <- Hd. }
  intros Hatt. destruct e; cbn [socket_event attached] in *; [by apply Hdispatch..|].
  unfold Bun_socket_event, bun_websocket.
  destruct (has_wsHandler options).
  - assert (∀ tag message,
      let w' := (bun_dispatch options ws' tag message w).2 in
      (∃ extra, delivered w' = delivered w ++ extra ∧ Forall (carries ws ctx) extra)
      ∧ wsData w' !!! ws = ctx) as Hbun.
    { intros tag message. unfold bun_dispatch. rewrite bind_run. cbn [get].
      pose proof (call_wsHandler_world ws'
        {| websocket := bunWebsocketToRuntimeSocket ws'; event := tag; data := message;
           error := None; context := wsData w !!! ws' |} w) as (Hd & _ & Hb).
      cbv zeta in *. rewrite Hb. split; [|done]. destruct Hd as [->| ->].
      - exists []. by rewrite app_nil_r.
      - eexists. split; [done|]. repeat constructor. intros Hws. cbn in *. by subst. }
    destruct ev; cbn; try apply Hbun.
    split; [|done]. exists []. by rewrite app_nil_r.
  - cbn. split; [|done]. exists []. by rewrite app_nil_r.
Qed.

(** A further connection on another socket leaves the context of connection
    [ws] attached, and has the socket handler called for that other socket
    only. *)
Lemma establish_world e ws ctx req request ws' data w :
  attached e ws ctx w →
  apart host options e ws (Connect req request ws' data) →
  let w' := (establish host options e req request ws' data w).2 in
  (∃ extra, delivered w' = delivered w ++ extra ∧ Forall (carries ws ctx) extra)
  ∧ attached e ws ctx w'.
Proof.
  intros Hatt Hapart.
  assert (∃ extra, delivered w = delivered w ++ extra ∧ Forall (carries ws ctx) extra)
    as Hnone by (exists []; by rewrite app_nil_r).
  destruct e; unfold establish, upgradeToWebSocket_on, apart, attached in *; cbv zeta.
  - (* Node *)
    unfold node_on_connection, nodeRuntimeWs, call_wsHandler, native_prop.
    destruct (wsHandler options) as [h|]; run; [|done].
    destruct (h _ (sockets w)) as [[[]|err] σ]; cbn.
    + split; [eexists; split; [done|]; repeat constructor; by intros ?|].
      by rewrite !lookup_total_insert_ne.
    + split; [eexists; split; [done|]; repeat constructor; by intros ?|]. done.
  - (* Deno *)
    unfold deno_upgradeToWebSocket, Deno_upgradeWebSocket_call,
      defineProperty_stupidDenoResponseMember.
    run. destruct (Deno_upgrade host request) as [[socket response]|err] eqn:Hup;
      cbn; [|done].
    destruct (stupidDenoResponseMember w !! req_id request); cbn; [done|].
    split; [done|]. rewrite !lookup_total_insert_ne; [done|by eapply Hapart..].
  - (* Bun *)
    unfold bun_upgradeToWebSocket, server_upgrade. run.
    destruct (Bun_upgrade host (has_wsHandler options) request) as [[socket|]|err] eqn:Hup;
      cbn; try done.
    split; [done|]. rewrite lookup_total_insert_ne; [done|by eapply Hapart].
Qed.

Lemma drive_world e ws ctx ss :
  Forall (apart host options e ws) ss →
  ∀ w, attached e ws ctx w →
       ∃ extra, delivered (drive host options e ss w) = delivered w ++ extra
                ∧ Forall (carries ws ctx) extra.
Proof.
  induction 1 as [|s ss Hs Hss IH]; intros w Hatt; cbn [drive].
  - exists []. by rewrite app_nil_r.
  - assert (let w' := (stimulate host options e s w).2 in
            (∃ extra, delivered w' = delivered w ++ extra ∧ Forall (carries ws ctx) extra)
            ∧ attached e ws ctx w') as ((x1 & H1 & Hall1) & Hatt').
    { destruct s as [ws' ev|req request ws' data]; cbn [stimulate].
      - by apply socket_event_world.
      - by apply establish_world. }
    destruct (IH _ Hatt') as (x2 & H2 & Hall2).
    exists (x1 ++ x2). rewrite H2, H1, <- app_assoc. split; [done|].
    by apply Forall_app.
Qed.

Lemma has_wsHandler_true :
  has_wsHandler options = true → ∃ h, wsHandler options = Some h.
Proof. unfold has_wsHandler. destruct (wsHandler options); [eauto|done]. Qed.

(** The connection listener of Node calls the socket handler with Open and
    the context it has read, and leaves that context attached. *)
Lemma node_on_connection_opens ws request w :
  has_wsHandler options = true →
  listeners w !! ws = None →
  let ctx := default Undefined (upgradeData w !! request) in
  let w1 := (node_on_connection options ws request w).2 in
  ∃ o, delivered w1 = delivered w ++ [(ws, o)]
       ∧ summary (ws, o) = (ws, WebsocketEventType.Open, None, None, ctx)
       ∧ attached OnNode ws ctx w1.
Proof.
  intros Hws Hfresh.
  assert (listeners w !!! ws = []) as Hnil by (by rewrite lookup_total_alt, Hfresh).
  destruct (has_wsHandler_true Hws) as [h Hh].
  unfold node_on_connection, nodeRuntimeWs, call_wsHandler, native_prop, attached.
  rewrite Hh. run.
  destruct (h _ (sockets w)) as [[[]|err] σ]; cbn.
  - eexists. split; [done|]. split; [done|].
    rewrite Hnil, !lookup_total_insert_eq. by repeat constructor.
  - eexists. split; [done|]. split; [done|]. rewrite Hnil. constructor.
Qed.

(** Once the connection is up, its context is attached to it; on Node the
    Open event has gone out already, with that context. *)
Lemma establish_attached e req request ws ctx w :
  has_wsHandler options = true →
  opens host options e request ws →
  listeners w !! ws = None →
  stupidDenoResponseMember w !! req_id request = None →
  let w1 := (establish host options e req request ws ctx w).2 in
  (∃ extra, delivered w1 = delivered w ++ extra
            ∧ Forall (carries ws (connection_context e req ctx w)) extra)
  ∧ attached e ws (connection_context e req ctx w) w1.
Proof.
  intros Hws Hopens Hfresh Hprop.
  assert (listeners w !!! ws = []) as Hnil by (by rewrite lookup_total_alt, Hfresh).
  destruct e; cbn [establish connection_context]; cbv zeta.
  - (* Node *)
    destruct (node_on_connection_opens ws (im_id req) w Hws Hfresh) as (o & Hd & Ho & Hatt).
    split; [|done]. eexists. split; [exact Hd|].
    constructor; [|done]. intros _. by injection Ho.
  - (* Deno *)
    destruct Hopens as [response Hopens].
    unfold upgradeToWebSocket_on, attached, deno_upgradeToWebSocket,
      Deno_upgradeWebSocket_call, defineProperty_stupidDenoResponseMember.
    run. rewrite Hopens. cbn. rewrite Hprop. cbn.
    split; [exists []; by rewrite app_nil_r|].
    rewrite Hnil. rewrite !lookup_total_insert_eq. by repeat constructor.
  - (* Bun *)
    unfold upgradeToWebSocket_on, attached, opens, bun_upgradeToWebSocket,
      server_upgrade in *.
    run. rewrite Hopens. cbn.
    split; [exists []; by rewrite app_nil_r|].
    by rewrite lookup_total_insert_eq.
Qed.

(** C2.  On Deno and Bun, once the handler has upgraded a request with a
    context and the connection is up on a fresh engine socket, every call of
    the socket handler for that connection carries that very context,
    whatever events the engine goes on to raise on this socket and on others
    and whatever further connections come up meanwhile.  On Node the claim
    fails.  The capability stores the context on the message of the request
    its handler was called with, and the connection listener reads the
    context off the message of the upgrade request; but a request that asks
    for an upgrade is never given to the request listener, so the message
    that comes with "connection" holds no upgrade data: Open goes out with
    the context [undefined], and so does every later event of the
    connection, whatever context the handler upgrades with. *)
Theorem context_threaded_except_on_node e req request ws ctx ss w :
  has_wsHandler options = true →
  opens host options e request ws →
  listeners w !! ws = None →
  stupidDenoResponseMember w !! req_id request = None →
  upgradeData w !! im_id req = None →
  Forall (apart host options e ws) ss →
  ∃ extra,
    delivered (drive host options e ss
                 (establish host options e req request ws ctx w).2)
      = delivered w ++ extra
    ∧ Forall (carries ws (if e is OnNode then Undefined else ctx)) extra
    ∧ (e = OnNode →
       head (summary <$> extra)
       = Some (ws, WebsocketEventType.Open, None, None, Undefined)).
Proof.
  intros Hws Hopens Hfresh Hprop Hdata Hss.
  assert (connection_context e req ctx w = if e is OnNode then Undefined else ctx) as Hctx.
  { destruct e; cbn; [by rewrite Hdata|done..]. }
  destruct (establish_attached e req request ws ctx w Hws Hopens Hfresh Hprop)
    as ((x1 & H1 & Hall1) & Hatt).
  rewrite Hctx in Hall1, Hatt.
  destruct (drive_world e ws _ ss Hss _ Hatt) as (x2 & H2 & Hall2).
  exists (x1 ++ x2). rewrite H2, H1, <- app_assoc. split; [done|].
  split; [by apply Forall_app|].
  intros ->. cbn [establish] in H1.
  destruct (node_on_connection_opens ws (im_id req) w Hws Hfresh) as (o & Hd & Ho & _).
  rewrite Hd in H1. apply app_inv_head in H1 as <-. cbn [app fmap list_fmap head].
  by rewrite Ho, Hdata.
Qed.

(** C1, as the code has it.  On Deno and Bun, with a socket handler
    configured, the capability returns true when the engine's upgrade call
    has succeeded.  On Node, when no socket handler was configured, the
    capability throws "WebSocket server not initialized" and leaves
    everything as it was, where the claim has it return false. *)
Theorem upgradeToWebSocket_true_or_throws e req request ws ctx w :
  (has_wsHandler options = true →
   e ≠ OnNode →
   opens host options e request ws →
   stupidDenoResponseMember w !! req_id request = None →
   (upgradeToWebSocket_on host options e req request ctx w).1 = Ok true)
  ∧ (has_wsHandler options = false →
     upgradeToWebSocket_on host options OnNode req request ctx w
     = (Throw (Error "WebSocket server not initialized"), w)).
Proof.
  split.
  - intros Hws Hne Hopens Hprop. destruct e; [done| |]; cbn [upgradeToWebSocket_on opens] in *.
    + destruct Hopens as [response Hopens].
      unfold deno_upgradeToWebSocket, Deno_upgradeWebSocket_call,
        defineProperty_stupidDenoResponseMember. run.
      rewrite Hopens. cbn. by rewrite Hprop.
    + unfold bun_upgradeToWebSocket, server_upgrade. run. by rewrite Hopens.
  - intros Hws. cbn [upgradeToWebSocket_on]. unfold node_upgradeToWebSocket.
    by rewrite Hws.
Qed.

End Upgrade.

(** No socket handler, on Node: the capability throws, and so does not
    return false. *)
Lemma upgradeToWebSocket_counterexample :
  let ctx := Str "test context" in
  let options := sample_options (upgrading_handler ctx) None None in
  wsHandler options = None
  ∧ upgradeToWebSocket_on sample_host options OnNode get_message get_request ctx
      empty_world
    = (Throw (Error "WebSocket server not initialized"), empty_world)
  ∧ (upgradeToWebSocket_on sample_host options OnNode get_message get_request ctx
       empty_world).1 ≠ Ok false.
Proof. repeat split. discriminate. Qed.

Lemma upgradeToWebSocket_true_or_throws_witness :
  let ctx := Str "test context" in
  let configured := sample_options (upgrading_handler ctx) (Some replying_wsHandler) None in
  let bare := sample_options (upgrading_handler ctx) None None in
  (upgradeToWebSocket_on sample_host configured OnDeno get_message get_request ctx
     empty_world).1 = Ok true
  ∧ (upgradeToWebSocket_on sample_host configured OnBun get_message get_request ctx
       empty_world).1 = Ok true
  ∧ upgradeToWebSocket_on sample_host bare OnNode get_message get_request ctx empty_world
    = (Throw (Error "WebSocket server not initialized"), empty_world).
Proof.
  cbv zeta. split; [|split].
  - apply (upgradeToWebSocket_true_or_throws sample_host
             (sample_options (upgrading_handler (Str "test context"))
                (Some replying_wsHandler) None)
             OnDeno get_message get_request 7%nat (Str "test context") empty_world);
      [reflexivity|discriminate|by eexists|reflexivity].
  - apply (upgradeToWebSocket_true_or_throws sample_host
             (sample_options (upgrading_handler (Str "test context"))
                (Some replying_wsHandler) None)
             OnBun get_message get_request 7%nat (Str "test context") empty_world);
      [reflexivity|discriminate|reflexivity|reflexivity].
  - apply (upgradeToWebSocket_true_or_throws sample_host
             (sample_options (upgrading_handler (Str "test context")) None None)
             OnNode get_message get_request 7%nat (Str "test context") empty_world).
    reflexivity.
Defined.

(** The "WebSocket connection" test on Node: the handler upgrades with
    "test context", and the events of the connection that comes up for the
    upgrade request carry [undefined]. *)
Lemma context_threaded_except_on_node_witness :
  let ctx := Str "test context" in
  let options := sample_options (upgrading_handler ctx) (Some replying_wsHandler) None in
  let other := {| im_id := 2; im_method := "GET"; im_url := "/"; im_headers := ∅;
                  im_stream := [] |} in
  let ss := [Raise 7%nat (EvMessage (Str "Hello WebSocket"));
             Connect other get_request 8%nat ctx;
             Raise 8%nat (EvMessage (Str "from another socket"));
             Raise 7%nat (EvError (Str "ECONNRESET"));
             Raise 7%nat EvClose] in
  let w := drive sample_host options OnNode ss
             (establish sample_host options OnNode get_message get_request 7%nat ctx
                empty_world).2 in
  summary <$> delivered w
    = [(7%nat, WebsocketEventType.Open, None, None, Undefined);
       (7%nat, WebsocketEventType.Message, Some (Str "Hello WebSocket"), None, Undefined);
       (8%nat, WebsocketEventType.Open, None, None, Undefined);
       (8%nat, WebsocketEventType.Message, Some (Str "from another socket"), None,
        Undefined);
       (7%nat, WebsocketEventType.Error, None, Some (Str "ECONNRESET"), Undefined);
       (7%nat, WebsocketEventType.Close, None, None, Undefined)]
  ∧ ∃ extra, delivered w = delivered empty_world ++ extra
             ∧ Forall (carries 7%nat Undefined) extra
             ∧ (OnNode = OnNode →
                head (summary <$> extra)
                = Some (7%nat, WebsocketEventType.Open, None, None, Undefined)).
Proof.
  cbv zeta. split; [reflexivity|].
  apply (context_threaded_except_on_node sample_host
           (sample_options (upgrading_handler (Str "test context"))
              (Some replying_wsHandler) None)
           OnNode get_message get_request 7%nat (Str "test context"));
    try reflexivity.
  repeat constructor. discriminate.
Defined.

Section SocketErrors.
Context (host : Host) (options : IServeOptions).

(** C4.  On Deno the claim fails: the adapter listens for "open", "message"
    and "close" on the socket it upgrades, and for nothing else, so an
    "error" the engine raises on that socket reaches no listener: the socket
    handler is not called and the world is as it was.  (The [websocket]
    object given to Bun has no member for errors either; only the Node
    connection listener subscribes to "error".) *)
Theorem deno_socket_error_is_dropped request ws response ctx cause w :
  Deno_upgrade host request = Ok (ws, response) →
  listeners w !! ws = None →
  stupidDenoResponseMember w !! req_id request = None →
  let w1 := (deno_upgradeToWebSocket host request ctx w).2 in
  (deno_upgradeToWebSocket host request ctx w).1 = Ok true
  ∧ l_type <$> (listeners w1 !!! ws) = ["open"; "message"; "close"]
  ∧ socket_event options OnDeno ws (EvError cause) w1 = (Ok tt, w1)
  ∧ Bun_socket_event options ws (EvError cause) w = (Ok tt, w).
Proof.
  intros Hopens Hfresh Hprop.
  assert (listeners w !!! ws = []) as Hnil by (by rewrite lookup_total_alt, Hfresh).
  unfold deno_upgradeToWebSocket, Deno_upgradeWebSocket_call,
    defineProperty_stupidDenoResponseMember, socket_event, dispatchEvent.
  run. rewrite Hopens. cbn. rewrite Hprop. cbn.
  rewrite Hnil, !lookup_total_insert_eq. cbn.
  repeat split.
  unfold Bun_socket_event, bun_websocket. by destruct (has_wsHandler options).
Qed.

End SocketErrors.

Lemma deno_socket_error_is_dropped_witness :
  let ctx := Str "test context" in
  let options := sample_options (upgrading_handler ctx) (Some replying_wsHandler) None in
  let w1 := (deno_upgradeToWebSocket sample_host get_request ctx empty_world).2 in
  socket_event options OnDeno 7%nat (EvError (Str "ECONNRESET")) w1 = (Ok tt, w1)
  ∧ summary <$> delivered (drive sample_host options OnDeno
                             [Raise 7%nat EvOpen; Raise 7%nat (EvError (Str "ECONNRESET"));
                              Raise 7%nat EvClose] w1)
    = [(7%nat, WebsocketEventType.Open, None, None, ctx);
       (7%nat, WebsocketEventType.Close, None, None, ctx)].
Proof.
  cbv zeta. split; [|reflexivity].
  apply (deno_socket_error_is_dropped sample_host
           (sample_options (upgrading_handler (Str "test context"))
              (Some replying_wsHandler) None)
           get_request 7%nat switching_response (Str "test context")
           (Str "ECONNRESET") empty_world); reflexivity.
Defined.

(** *** Server lifecycle *)

Section Lifecycle.
Context (host : Host) (options : IServeOptions).

Lemma teardown_of_engine (cs : list EngineCall) (m : M World unit) w :
  calls (m w).2 = calls w ++ cs → teardown_of m w = omap teardown cs.
Proof. intros H. unfold teardown_of. by rewrite H, drop_app_length. Qed.

Lemma run_callback_calls c w :
  run_callback c w = (Ok tt, set_calls (calls w ++ callback_calls c) w).
Proof.
  destruct c as [| |[]|[]]; unfold run_callback, set_calls; run;
    rewrite <- ?app_assoc; reflexivity.
Qed.

Lemma abort_single s c w :
  abortListeners w !! s = Some [c] → abort s w = run_callback c w.
Proof.
  intros H. unfold abort. rewrite bind_run. cbn [get].
  rewrite lookup_total_alt, H. cbn [default for_each from_option id].
  rewrite bind_run. by rewrite run_callback_calls.
Qed.

Lemma teardown_of_callback c w :
  teardown_of (run_callback c) w = omap teardown (callback_calls c).
Proof. apply teardown_of_engine. by rewrite run_callback_calls. Qed.

Lemma teardown_of_abort s c w :
  abortListeners w !! s = Some [c] →
  teardown_of (abort s) w = omap teardown (callback_calls c).
Proof.
  intros H. rewrite <- (teardown_of_callback c w). unfold teardown_of.
  by rewrite (abort_single s c w H).
Qed.

(** C5, as the code has it.  With a signal supplied: on Bun the listener
    put on the signal is [stopServer], the procedure [close()] runs, so abort
    and [close()] do the same; on Node the listener and [close()] are two
    closures that perform the same operations, [wss.close()] when there is
    a WebSocket server and then [server.close] ([close()] also passing a
    completion callback); on Deno no listener is put on the signal, which
    is handed to [Deno.serve], while [close()] calls [server.shutdown()]. *)
Theorem abort_and_close e s w server w1 w2 :
  signal options = Some s →
  abortListeners w !! s = None →
  serve host options (runtime_of e) w = (Ok (Resolved server), w1) →
  abortListeners w2 !! s = abortListeners w1 !! s →
  match e with
  | OnBun =>
      abortListeners w1 !! s = Some [srv_close server]
      ∧ abort s w2 = run_callback (srv_close server) w2
  | OnNode =>
      teardown_of (abort s) w2 = teardown_of (run_callback (srv_close server)) w2
      ∧ teardown_of (abort s) w2
        = (if has_wsHandler options then [CloseWss] else []) ++ [CloseServer]
  | OnDeno =>
      abortListeners w1 !! s = None
      ∧ calls w1 = calls w ++ [Deno_serve (hostname options) (port options) (Some s)
                                          (tls options) (reusePort options)]
      ∧ teardown_of (run_callback (srv_close server)) w2 = [ShutdownDeno]
  end.
Proof.
  intros Hs Hfresh Hserve Hsame.
  assert (abortListeners w !!! s = []) as Hnil by (by rewrite lookup_total_alt, Hfresh).
  destruct e; cbn [runtime_of serve] in Hserve.
  - (* Node *)
    unfold nodeServe, node_listening in Hserve. rewrite Hs in Hserve.
    assert (abortListeners w1 !! s = Some [nodeOnAbort (has_wsHandler options)]
            ∧ srv_close server = nodeClose (has_wsHandler options)) as [Hl ->].
    { destruct (Node_address host) as [[address p]|], (has_wsHandler options);
        run; try discriminate; injection Hserve as <- <-; cbn;
        by rewrite Hnil, lookup_insert_eq. }
    rewrite Hl in Hsame. rewrite (teardown_of_abort _ _ _ Hsame), !teardown_of_callback.
    by destruct (has_wsHandler options).
  - (* Deno *)
    rewrite teardown_of_callback.
    unfold denoServe in Hserve. run. rewrite Hs in Hserve.
    by injection Hserve as <- <-.
  - (* Bun *)
    unfold bunServe in Hserve. rewrite Hs in Hserve. run.
    injection Hserve as <- <-. cbn in *. rewrite Hnil in *. cbn in *.
    rewrite lookup_insert_eq in *. split; [done|].
    by apply (abort_single s stopServer).
Qed.

End Lifecycle.

Lemma abort_is_not_close_on_deno :
  let options := sample_options hello_handler None (Some 0%nat) in
  ∃ server w1,
    serve sample_host options Deno empty_world = (Ok (Resolved server), w1)
    ∧ teardown_of (abort 0) w1 = []
    ∧ teardown_of (run_callback (srv_close server)) w1 = [ShutdownDeno]
    ∧ teardown_of (abort 0) w1 ≠ teardown_of (run_callback (srv_close server)) w1.
Proof. cbv zeta. eexists _, _. repeat split. discriminate. Qed.

Lemma abort_and_close_witness :
  let options := sample_options hello_handler (Some replying_wsHandler) (Some 0%nat) in
  let server := {| srv_close := nodeClose true;
                   addr := {| transport := "tcp"; addr_hostname := "::";
                              addr_port := 8083 |};
                   ref := server_ref; unref := server_unref;
                   asyncDispose := nodeClose true; dispose := nodeClose true |} in
  let w1 := (serve sample_host options Node empty_world).2 in
  serve sample_host options Node empty_world = (Ok (Resolved server), w1)
  ∧ teardown_of (abort 0) w1 = teardown_of (run_callback (srv_close server)) w1
  ∧ teardown_of (abort 0) w1 = [CloseWss; CloseServer].
Proof.
  cbv zeta. split; [reflexivity|].
  apply (abort_and_close sample_host
           (sample_options hello_handler (Some replying_wsHandler) (Some 0%nat))
           OnNode 0%nat empty_world _ _ _ eq_refl eq_refl eq_refl eq_refl).
Defined.

(** *** Failing handlers *)

Section Exchange.
Context (host : Host) (options : IServeOptions).

(** [serve] does not run the handler: what it returns, and what it leaves
    behind, is the same whatever the handler is. *)
Lemma serve_ignores_handler h runtime w :
  serve host (with_handler h options) runtime w = serve host options runtime w.
Proof. by destruct runtime. Qed.

(** On Node, when the user's handler throws or rejects, the request listener
    catches the error, logs it and writes status 500 with the body
    "Internal Server Error"; the listener itself completes normally.  The
    caller of [serve] sees nothing of it: [serve] has returned without
    running the handler, with the result it would have had with any other
    handler.  (The callbacks given to Deno and Bun catch nothing and are
    given no error callback: there the error goes to the engine, and the
    reply is the engine's.) *)
Lemma node_handler_failure_is_500 req request err w w1 :
  incomingMessageToRequest host options req = Resolved request →
  handler_call host options OnNode req request w = (Throw err, w1) →
  Node_exchange host options req w
  = (Ok tt,
     set_calls (calls w1 ++ [console_error err;
                             Node_res_writeHead (im_id req) 500 None [];
                             Node_res_end (im_id req) (Some "Internal Server Error")])
               w1)
  ∧ statuses_written (im_id req)
      (drop (length (calls w1)) (calls (Node_exchange host options req w).2)) = [500]
  ∧ (∀ h runtime w0,
       serve host options runtime w0 = serve host (with_handler h options) runtime w0).
Proof.
  intros Hrequest Hfail. unfold handler_call, upgradeToWebSocket_on in Hfail.
  assert (Node_exchange host options req w
          = (Ok tt,
             set_calls (calls w1 ++ [console_error err;
                                     Node_res_writeHead (im_id req) 500 None [];
                                     Node_res_end (im_id req)
                                                  (Some "Internal Server Error")])
                       w1)) as ->.
  { unfold Node_exchange, node_on_request. rewrite Hrequest.
    unfold try_catch, await. rewrite bind_run, Hfail.
    unfold set_calls. run. by rewrite <- !app_assoc. }
  split; [done|]. split.
  - cbn. rewrite drop_app_length. cbn. by rewrite bool_decide_eq_true_2.
  - intros h runtime w0. by rewrite serve_ignores_handler.
Qed.

(** The adapters of Deno and Bun hand the handler's failure on to the engine
    as it is. *)
Lemma deno_bun_handler_failure_reaches_engine req request err w w1 :
  (handler_call host options OnDeno req request w = (Throw err, w1) →
   deno_handler host options request w = (Throw err, w1))
  ∧ (handler_call host options OnBun req request w = (Throw err, w1) →
     bun_fetch host options request w = (Throw err, w1)).
Proof.
  unfold handler_call, upgradeToWebSocket_on. split; intros Hfail.
  - unfold deno_handler. by rewrite bind_run, Hfail.
  - unfold bun_fetch. by rewrite Hfail.
Qed.

End Exchange.

(** ** Further properties of the adapters *)

(** *** Canonical socket: send and the live members *)

Section SocketMembers.

(** X1. [send(data)] of the canonical socket, on every engine, makes exactly one
    call, the engine socket's own [send] with the same payload, and touches
    no other socket. *)
Theorem send_forwards_payload e ws (σ : Sockets) :
  ∃ socket,
    runtime_socket e ws σ = (Ok socket, σ)
    ∧ ∀ (σ' : Sockets) payload,
        ∃ σ'' : Sockets,
          send socket payload σ' = (Ok tt, σ'')
          ∧ ns_calls (σ'' !!! ws) = ns_calls (σ' !!! ws) ++ [NSend payload]
          ∧ ∀ other, other ≠ ws → σ'' !! other = σ' !! other.
Proof.
  destruct (runtime_socket_builds e ws σ) as [socket Hs].
  exists socket. split; [done|]. intros σ' payload.
  exists (<[ws := ns_sent payload (σ' !!! ws)]> σ').
  assert (send socket payload σ'
          = (Ok tt, <[ws := ns_sent payload (σ' !!! ws)]> σ')) as ->.
  { destruct e; cbn in Hs; injection Hs as <-; reflexivity. }
  split; [done|]. rewrite lookup_total_insert_eq. split; [done|].
  intros other Hne. by rewrite lookup_insert_ne.
Qed.

(** X2. [getBufferedAmount()] is live on every engine, Node included: it gives
    the engine socket's buffered amount at the time of the call, not at the
    time the canonical socket was built, and changes nothing. *)
Theorem getBufferedAmount_is_live e ws (σ : Sockets) :
  ∃ socket,
    runtime_socket e ws σ = (Ok socket, σ)
    ∧ ∀ (σ' : Sockets) native,
        getBufferedAmount socket (<[ws := native]> σ')
          = (Ok (ns_bufferedAmount native), <[ws := native]> σ').
Proof.
  destruct (runtime_socket_builds e ws σ) as [socket Hs].
  exists socket. split; [done|]. intros σ' native.
  destruct e; cbn in Hs; injection Hs as <-; cbn;
    unfold native_prop; run; by rewrite lookup_total_insert_eq.
Qed.

(** X3. On Bun and Deno [readyState()] and [binaryType()] are live too: after
    the engine socket has changed, the same canonical socket reports what
    the engine socket reports then, as it is. *)
Theorem bun_deno_readyState_is_live ws (σ : Sockets) native :
  let bun := bunWebsocketToRuntimeSocket ws in
  let deno := denoWebsocketToRuntimeSocket ws in
  let σ' := <[ws := native]> σ in
  call "readyState" (readyState bun) σ' = (Ok (ns_readyState native), σ')
  ∧ call "readyState" (readyState deno) σ' = (Ok (ns_readyState native), σ')
  ∧ call "binaryType" (binaryType bun) σ' = (Ok (ns_binaryType native), σ')
  ∧ call "binaryType" (binaryType deno) σ' = (Ok (ns_binaryType native), σ').
Proof.
  cbv zeta. cbn. unfold native_prop. run. rewrite lookup_total_insert_eq.
  repeat split.
Qed.

End SocketMembers.

(** *** Request bridge of Node: rejection, suspension, single settlement *)

Section BridgeEdges.
Context (host : Host) (options : IServeOptions).

Lemma receive_until_error make before e after chunks :
  Forall is_data before →
  receive make (before ++ OnError e :: after) chunks Pending = Rejected e.
Proof.
  revert chunks. induction before as [|ev before IH]; intros chunks Hdata.
  - cbn. by rewrite receive_settled.
  - inversion Hdata as [|? ? [chunk ->] Hrest]; subst. cbn. by rewrite IH.
Qed.

Lemma receive_data_only make stream chunks :
  Forall is_data stream → receive make stream chunks Pending = Pending.
Proof.
  revert chunks. induction stream as [|ev stream IH]; intros chunks Hdata; [done|].
  inversion Hdata as [|? ? [chunk ->] Hrest]; subst. cbn. by rewrite IH.
Qed.

(** X4. For a method other than GET and HEAD, an error notification that comes
    before any end notification rejects the request with that error,
    whatever data came before it. *)
Theorem request_rejects_on_stream_error req href before e after :
  URL_new host (request_url options req) = Ok href →
  im_method req ≠ "GET" → im_method req ≠ "HEAD" →
  im_stream req = before ++ OnError e :: after →
  Forall is_data before →
  incomingMessageToRequest host options req = Rejected e.
Proof.
  intros Hurl Hget Hhead Hstream Hdata. unfold incomingMessageToRequest.
  rewrite Hurl, bool_decide_eq_true_2 by done.
  by rewrite Hstream, receive_until_error.
Qed.

(** X5. For a method other than GET and HEAD, a request stream that gives data
    but neither ends nor errors leaves the request pending: no [Request] is
    ever constructed from the data buffered so far. *)
Theorem request_pending_without_end req href :
  URL_new host (request_url options req) = Ok href →
  im_method req ≠ "GET" → im_method req ≠ "HEAD" →
  Forall is_data (im_stream req) →
  incomingMessageToRequest host options req = Pending.
Proof.
  intros Hurl Hget Hhead Hdata. unfold incomingMessageToRequest.
  rewrite Hurl, bool_decide_eq_true_2 by done. by rewrite receive_data_only.
Qed.

(** X6. The request settles once: after the first end or error notification,
    whatever the stream goes on to emit (more data, an error after the end,
    an end after the error) changes nothing of the outcome. *)
Theorem request_settles_once req before ev after after' :
  Forall is_data before →
  ev = OnEnd ∨ (∃ e, ev = OnError e) →
  incomingMessageToRequest host options (with_stream (before ++ ev :: after) req)
  = incomingMessageToRequest host options (with_stream (before ++ ev :: after') req).
Proof.
  intros Hdata Hev. unfold incomingMessageToRequest, request_url. cbn.
  destruct (URL_new host _) as [href|err]; [|done].
  case_bool_decide; [|done].
  destruct Hev as [->|[e ->]].
  - by rewrite !receive_until_end.
  - by rewrite !receive_until_error.
Qed.

(** X7. For GET and HEAD the request stream is never listened to: the outcome is
    the same whatever the stream emits, an error included, and a request
    that is constructed has no body. *)
Theorem get_and_head_ignore_the_stream req stream :
  im_method req = "GET" ∨ im_method req = "HEAD" →
  incomingMessageToRequest host options (with_stream stream req)
  = incomingMessageToRequest host options req
  ∧ ∀ request,
      incomingMessageToRequest host options (with_stream stream req) = Resolved request →
      body request = None.
Proof.
  intros Hm. unfold incomingMessageToRequest, request_url. cbn.
  destruct (URL_new host _) as [href|err]; [|done].
  rewrite bool_decide_eq_false_2; [|intros [? ?]; by destruct Hm].
  split; [done|]. unfold Request_new.
  destruct (Request_refuses host href (im_method req) (im_headers req)); [done|].
  by intros request [= <-].
Qed.

(** X8. The body of a constructed request is never an untyped [Blob]: its type is
    the content-type header of the message when there is one and it is not
    empty, and "application/octet-stream" otherwise. *)
Theorem request_blob_type req request blob :
  incomingMessageToRequest host options req = Resolved request →
  body request = Some blob →
  blob_type blob ≠ ""
  ∧ (∀ type, im_headers req !! "content-type" = Some type → type ≠ "" →
             blob_type blob = type)
  ∧ (im_headers req !! "content-type" = None
     ∨ im_headers req !! "content-type" = Some "" →
     blob_type blob = "application/octet-stream").
Proof.
  unfold incomingMessageToRequest. intros H Hbody.
  destruct (URL_new host _) as [href|err]; [|done].
  case_bool_decide.
  - apply receive_resolved in H as (before & after & _ & _ & Hmake).
    unfold Request_new in Hmake.
    destruct (Request_refuses host href (im_method req) (im_headers req)); [done|].
    injection Hmake as <-.
    cbn in Hbody. injection Hbody as <-. cbn. unfold content_type.
    destruct (im_headers req !! "content-type") as [[|a type]|]; repeat split;
      try done.
    + by intros ? [= <-].
    + by intros ? [= <-].
    + by intros [?|?].
  - unfold Request_new in H.
    destruct (Request_refuses host href (im_method req) (im_headers req)); [done|].
    injection H as <-. done.
Qed.

End BridgeEdges.

Lemma request_rejects_on_stream_error_witness :
  let req := with_stream [OnData [x7b]; OnError (Error "aborted"); OnEnd] post_message in
  incomingMessageToRequest sample_host (sample_options hello_handler None None) req
  = Rejected (Error "aborted").
Proof.
  cbv zeta.
  apply (request_rejects_on_stream_error sample_host
           (sample_options hello_handler None None)
           (with_stream [OnData [x7b]; OnError (Error "aborted"); OnEnd] post_message)
           "http://localhost:8083/users" [OnData [x7b]] (Error "aborted") [OnEnd]);
    try done.
  repeat constructor. by eexists.
Defined.

Lemma request_pending_without_end_witness :
  incomingMessageToRequest sample_host (sample_options hello_handler None None)
    (with_stream [OnData [x7b]; OnData [x7d]] post_message)
  = Pending.
Proof.
  apply (request_pending_without_end sample_host
           (sample_options hello_handler None None)
           (with_stream [OnData [x7b]; OnData [x7d]] post_message)
           "http://localhost:8083/users"); try done.
  repeat constructor; by eexists.
Defined.

Lemma request_settles_once_witness :
  incomingMessageToRequest sample_host (sample_options hello_handler None None)
    (with_stream ([OnData [x7b]] ++ OnEnd :: [OnError (Error "late"); OnData [x7d]])
       post_message)
  = incomingMessageToRequest sample_host (sample_options hello_handler None None)
      (with_stream ([OnData [x7b]] ++ OnEnd :: []) post_message).
Proof.
  apply (request_settles_once sample_host (sample_options hello_handler None None)
           post_message [OnData [x7b]] OnEnd); [|by left].
  repeat constructor. by eexists.
Defined.

Lemma get_and_head_ignore_the_stream_witness :
  incomingMessageToRequest sample_host (sample_options hello_handler None None)
    (with_stream [OnError (Error "aborted")] get_message)
  = incomingMessageToRequest sample_host (sample_options hello_handler None None)
      get_message.
Proof.
  apply (get_and_head_ignore_the_stream sample_host
           (sample_options hello_handler None None) get_message). by left.
Defined.

Lemma request_blob_type_witness :
  ∃ blob, body posted_request = Some blob
          ∧ blob_type blob = "application/octet-stream".
Proof.
  eexists. split; [reflexivity|].
  apply (request_blob_type sample_host (sample_options hello_handler None None)
           post_message posted_request); [reflexivity..|]. by left.
Defined.

(** *** Response path of Node *)

Section NodeResponse.
Context (host : Host) (options : IServeOptions).

Lemma write_chunks_calls res (cs : list (list byte)) w :
  (for_each (λ chunk, engine (Node_res_write res chunk)) cs w).1 = Ok tt
  ∧ calls (for_each (λ chunk, engine (Node_res_write res chunk)) cs w).2
    = calls w ++ (Node_res_write res <$> cs).
Proof.
  revert w. induction cs as [|chunk cs IH]; intros w; cbn [for_each].
  - cbn. by rewrite app_nil_r.
  - rewrite bind_run. cbn [engine modify].
    destruct (IH (set_calls (calls w ++ [Node_res_write res chunk]) w)) as [H1 H2].
    split; [done|]. rewrite H2. cbn. by rewrite <- app_assoc.
Qed.

Lemma concat_nonempty (cs : list (list byte)) :
  concat (filter (λ chunk, chunk ≠ []) cs) = concat cs.
Proof.
  induction cs as [|c cs IH]; [done|]. rewrite filter_cons.
  destruct (decide (c ≠ [])) as [Hc|Hc]; cbn; [by rewrite IH|].
  apply dec_stable in Hc as ->. by rewrite IH.
Qed.

(** What the request listener asks of the response once the handler has
    returned: the head, then the body chunk by chunk, then the end; or, if
    reading the body failed, the chunks that had gone out by then and the
    destruction of the stream, which nothing catches. *)
Lemma node_response_calls req request response w w1 :
  incomingMessageToRequest host options req = Resolved request →
  handler_call host options OnNode req request w = (Ok response, w1) →
  (Node_exchange host options req w).1 = Ok tt
  ∧ calls (Node_exchange host options req w).2
    = calls w1
      ++ Node_res_writeHead (im_id req) (status response) (Some (statusText response))
                            (res_headers response)
      :: match res_body response with
         | None => [Node_res_end (im_id req) None]
         | Some body =>
             let pushed := filter (λ chunk, chunk ≠ []) (chunks body) in
             match failure body with
             | None =>
                 (Node_res_write (im_id req) <$> pushed)
                 ++ [Node_res_end (im_id req) None]
             | Some e =>
                 (Node_res_write (im_id req)
                    <$> take (Node_flushed host (im_id req)) pushed)
                 ++ [Node_stream_destroy (im_id req) e; Node_uncaught e]
             end
         end.
Proof.
  intros Hrequest Hcall. unfold handler_call, upgradeToWebSocket_on in Hcall.
  unfold Node_exchange, node_on_request. rewrite Hrequest.
  unfold try_catch, await. rewrite bind_run, Hcall. rewrite bind_run. cbn [engine modify].
  destruct (res_body response) as [body|].
  - unfold stream_pipe. cbv zeta. destruct (failure body) as [e|].
    + rewrite bind_run.
      match goal with |- context [for_each ?f ?cs ?w0] =>
        destruct (write_chunks_calls (im_id req) cs w0) as [H1 H2];
        destruct (for_each f cs w0) as [[[]|err] w2] end; [|done].
      cbn in H2. rewrite bind_run. cbn [engine modify]. cbn.
      rewrite H2, <- !app_assoc. done.
    + rewrite bind_run.
      match goal with |- context [for_each ?f ?cs ?w0] =>
        destruct (write_chunks_calls (im_id req) cs w0) as [H1 H2];
        destruct (for_each f cs w0) as [[[]|err] w2] end; [|done].
      cbn in H2. cbn. rewrite H2, <- !app_assoc. done.
  - cbn. by rewrite <- app_assoc.
Qed.

Lemma written_bytes_app res cs1 cs2 :
  written_bytes res (cs1 ++ cs2) = written_bytes res cs1 ++ written_bytes res cs2.
Proof. unfold written_bytes. by rewrite omap_app, concat_app. Qed.

Lemma written_bytes_writes res (cs : list (list byte)) :
  written_bytes res (Node_res_write res <$> cs) = concat cs.
Proof.
  unfold written_bytes. f_equal. induction cs as [|c cs IH]; [done|].
  cbn. rewrite bool_decide_eq_true_2 by done. cbn. by rewrite IH.
Qed.




(** X10. When reading the response body fails part-way, what has been written
    is the start of the body (what the stream still buffered is lost), the
    stream that feeds the response is destroyed with the error, the error
    finds no listener and ends as an uncaught exception, and the response is
    never ended by the adapter. *)
Theorem node_body_failure_destroys req request response body e w w1 :
  incomingMessageToRequest host options req = Resolved request →
  handler_call host options OnNode req request w = (Ok response, w1) →
  res_body response = Some body →
  failure body = Some e →
  let written := drop (length (calls w1)) (calls (Node_exchange host options req w).2) in
  (Node_exchange host options req w).1 = Ok tt
  ∧ (∃ lost, concat (chunks body) = written_bytes (im_id req) written ++ lost)
  ∧ (∃ before,
       written = before ++ [Node_stream_destroy (im_id req) e; Node_uncaught e])
  ∧ Forall (λ c, ∀ res chunk, c ≠ Node_res_end res chunk) written.
Proof.
  intros Hrequest Hcall Hbody Hfail.
  destruct (node_response_calls req request response w w1 Hrequest Hcall) as [H1 H2].
  cbv zeta in *. rewrite H2, drop_app_length, Hbody, Hfail. split; [done|].
  set (pushed := filter (λ chunk, chunk ≠ []) (chunks body)).
  set (n := Node_flushed host (im_id req)).
  split; [|split].
  - exists (concat (drop n pushed)).
    change (?a :: ?l) with ([a] ++ l). rewrite !written_bytes_app, written_bytes_writes.
    cbn. rewrite app_nil_r, <- concat_app, take_drop. unfold pushed.
    by rewrite concat_nonempty.
  - eexists (_ :: _). reflexivity.
  - constructor; [done|]. apply Forall_app. split; [|by repeat constructor].
    apply Forall_fmap, Forall_forall. by intros chunk _ res c.
Qed.

(** A response without a body is the status line and the end of the
    response, and nothing else. *)
Theorem node_response_without_body req request response w w1 :
  incomingMessageToRequest host options req = Resolved request →
  handler_call host options OnNode req request w = (Ok response, w1) →
  res_body response = None →
  Node_exchange host options req w
  = (Ok tt,
     set_calls (calls w1 ++ [Node_res_writeHead (im_id req) (status response)
                               (Some (statusText response)) (res_headers response);
                             Node_res_end (im_id req) None]) w1).
Proof.
  intros Hrequest Hcall Hbody. unfold handler_call, upgradeToWebSocket_on in Hcall.
  unfold Node_exchange, node_on_request. rewrite Hrequest.
  unfold try_catch, await. rewrite bind_run, Hcall, Hbody.
  unfold set_calls. run. by rewrite <- app_assoc.
Qed.

(** X11. While the request is pending (its body never ends), the exchange does
    nothing at all: the handler is not called and nothing is written. *)
Theorem node_pending_request_is_not_handled req w :
  incomingMessageToRequest host options req = Pending →
  Node_exchange host options req w = (Ok tt, w).
Proof.
  intros H. unfold Node_exchange, node_on_request. by rewrite H.
Qed.

(** X12. A request that cannot be constructed (the URL does not parse, or the
    body stream errors) is answered with status 500 and the body
    "Internal Server Error", after the error is logged; the handler is not
    called. *)
Theorem node_rejected_request_is_500 req e w :
  incomingMessageToRequest host options req = Rejected e →
  Node_exchange host options req w
  = (Ok tt,
     set_calls (calls w ++ [console_error e;
                            Node_res_writeHead (im_id req) 500 None [];
                            Node_res_end (im_id req) (Some "Internal Server Error")]) w).
Proof.
  intros H. unfold Node_exchange, node_on_request. rewrite H.
  unfold set_calls. run. by rewrite <- !app_assoc.
Qed.

End NodeResponse.


Lemma node_body_failure_destroys_witness :
  let options := sample_options broken_stream_handler None None in
  let written := calls (Node_exchange sample_host options get_message empty_world).2 in
  written
  = [Node_res_writeHead 1 200 (Some "") []; Node_res_write 1 [x63; x31; x0a];
     Node_stream_destroy 1 (Error "read failed"); Node_uncaught (Error "read failed")]
  ∧ (∃ lost, [x63; x31; x0a] = written_bytes 1 written ++ lost)
  ∧ ∃ before,
      written = before ++ [Node_stream_destroy 1 (Error "read failed");
                           Node_uncaught (Error "read failed")].
Proof.
  cbv zeta. split; [reflexivity|].
  destruct (node_body_failure_destroys sample_host
              (sample_options broken_stream_handler None None)
              get_message get_request _ _ (Error "read failed") empty_world empty_world
              eq_refl eq_refl eq_refl eq_refl) as (_ & Hbytes & Hlast & _).
  split; [exact Hbytes|exact Hlast].
Defined.

Lemma node_pending_request_is_not_handled_witness :
  Node_exchange sample_host (sample_options failing_handler None None)
    (with_stream [OnData [x7b]] post_message) empty_world
  = (Ok tt, empty_world).
Proof.
  apply (node_pending_request_is_not_handled sample_host
           (sample_options failing_handler None None)
           (with_stream [OnData [x7b]] post_message) empty_world).
  reflexivity.
Defined.

Lemma node_rejected_request_is_500_witness :
  calls (Node_exchange sample_host (sample_options hello_handler None None)
           (with_stream [OnError (Error "aborted")] post_message) empty_world).2
  = [console_error (Error "aborted"); Node_res_writeHead 1 500 None [];
     Node_res_end 1 (Some "Internal Server Error")].
Proof.
  rewrite (node_rejected_request_is_500 sample_host
             (sample_options hello_handler None None)
             (with_stream [OnError (Error "aborted")] post_message)
             (Error "aborted") empty_world eq_refl).
  reflexivity.
Defined.

(** *** Handlers that upgrade *)

Section UpgradingHandlers.
Context (host : Host) (options : IServeOptions).
Context (ctx : Value) (respond : bool → Response).
Hypothesis handler_upgrades : handler options = upgrade_then ctx respond.

(** X13. On Node with no socket handler configured, a handler that upgrades is
    cut short by the capability's exception, which the request listener
    turns into status 500: the handler's own answer is never consulted and
    no context is recorded. *)
Theorem node_upgrade_without_wsHandler_is_500 req request w :
  has_wsHandler options = false →
  incomingMessageToRequest host options req = Resolved request →
  Node_exchange host options req w
  = (Ok tt,
     set_calls (calls w ++ [console_error (Error "WebSocket server not initialized");
                            Node_res_writeHead (im_id req) 500 None [];
                            Node_res_end (im_id req) (Some "Internal Server Error")]) w).
Proof.
  intros Hws Hrequest. unfold Node_exchange, node_on_request.
  rewrite Hrequest, Hws, handler_upgrades.
  unfold upgrade_then, node_upgradeToWebSocket, set_calls. run.
  by rewrite <- !app_assoc.
Qed.

(** X14. After a successful upgrade the engines differ in what becomes of the
    response the handler returns: Deno answers with the response
    [Deno.upgradeWebSocket] produced, whatever the handler returned; Bun is
    handed the handler's response; Node writes the handler's status line. *)
Theorem response_after_upgrade req request ws switching w :
  has_wsHandler options = true →
  stupidDenoResponseMember w !! req_id request = None →
  (Deno_upgrade host request = Ok (ws, switching) →
   (Deno_exchange host options request w).1 = Ok switching)
  ∧ (Bun_upgrade host true request = Ok (Some ws) →
     (Bun_exchange host options request w).1 = Ok (respond true))
  ∧ (incomingMessageToRequest host options req = Resolved request →
     res_body (respond true) = None →
     statuses_written (im_id req)
       (drop (length (calls w)) (calls (Node_exchange host options req w).2))
     = [status (respond true)]).
Proof.
  intros Hws Hprop. split; [|split].
  - intros Hup. unfold Deno_exchange, deno_handler, try_catch.
    rewrite handler_upgrades.
    unfold upgrade_then, deno_upgradeToWebSocket, Deno_upgradeWebSocket_call,
      defineProperty_stupidDenoResponseMember.
    run. rewrite Hup. cbn. rewrite Hprop. cbn. by rewrite lookup_insert_eq.
  - intros Hup. unfold Bun_exchange, bun_fetch, try_catch.
    rewrite handler_upgrades.
    unfold upgrade_then, bun_upgradeToWebSocket, server_upgrade.
    run. rewrite Hws, Hup. done.
  - intros Hrequest Hbody. unfold Node_exchange, node_on_request.
    rewrite Hrequest, Hws, handler_upgrades.
    unfold upgrade_then, node_upgradeToWebSocket. run. rewrite Hbody. cbn.
    rewrite <- app_assoc, drop_app_length. cbn.
    by rewrite bool_decide_eq_true_2.
Qed.

End UpgradingHandlers.

Lemma node_upgrade_without_wsHandler_is_500_witness :
  calls (Node_exchange sample_host
           (sample_options (upgrade_then (Str "test context")
                              (λ ok, if ok then switching_response else error_response))
              None None)
           get_message empty_world).2
  = [console_error (Error "WebSocket server not initialized");
     Node_res_writeHead 1 500 None [];
     Node_res_end 1 (Some "Internal Server Error")].
Proof.
  rewrite (node_upgrade_without_wsHandler_is_500 sample_host
             (sample_options (upgrade_then (Str "test context")
                                (λ ok, if ok then switching_response else error_response))
                None None)
             (Str "test context")
             (λ ok, if ok then switching_response else error_response)
             eq_refl get_message get_request empty_world eq_refl eq_refl).
  reflexivity.
Defined.

Lemma response_after_upgrade_witness :
  let options := sample_options (upgrade_then (Str "test context") (λ _, ok_response))
                   (Some replying_wsHandler) None in
  (Deno_exchange sample_host options get_request empty_world).1 = Ok switching_response
  ∧ (Bun_exchange sample_host options get_request empty_world).1 = Ok ok_response.
Proof.
  cbv zeta.
  destruct (response_after_upgrade sample_host
              (sample_options (upgrade_then (Str "test context") (λ _, ok_response))
                 (Some replying_wsHandler) None)
              (Str "test context") (λ _, ok_response) eq_refl
              get_message get_request 7%nat switching_response empty_world
              eq_refl eq_refl) as (Hdeno & Hbun & _).
  split; [exact (Hdeno eq_refl)|exact (Hbun eq_refl)].
Defined.

(** *** Connections: where the context comes from, and what is dispatched *)

Section Connections.
Context (host : Host) (options : IServeOptions).

(** With a socket handler configured, a call of it is logged exactly once,
    whether it returns or throws. *)
Lemma call_wsHandler_logged h ws o w :
  wsHandler options = Some h →
  let w' := (call_wsHandler options ws o w).2 in
  delivered w' = delivered w ++ [(ws, o)]
  ∧ listeners w' = listeners w ∧ wsData w' = wsData w
  ∧ upgradeData w' = upgradeData w.
Proof.
  intros Hh. unfold call_wsHandler. rewrite Hh. run.
  by destruct (h o (sockets w)) as [[[]|e] σ].
Qed.

(** X15. On Node the context of a connection is what [req.upgradeData] holds when
    the "connection" event fires: [undefined] if the handler never upgraded
    that request, the value of its last upgrade otherwise.  It is read once:
    the Open event and every later event of the connection carry it,
    whatever the engine raises on this socket and on others meanwhile. *)
Theorem node_context_is_read_at_connection ws request ss w :
  has_wsHandler options = true →
  listeners w !! ws = None →
  Forall (apart host options OnNode ws) ss →
  let ctx := default Undefined (upgradeData w !! request) in
  ∃ extra,
    delivered (drive host options OnNode ss (node_on_connection options ws request w).2)
    = delivered w ++ extra
    ∧ head (summary <$> extra) = Some (ws, WebsocketEventType.Open, None, None, ctx)
    ∧ Forall (carries ws ctx) extra.
Proof.
  intros Hws Hfresh Hss ctx.
  assert (listeners w !!! ws = []) as Hnil by (by rewrite lookup_total_alt, Hfresh).
  destruct (has_wsHandler_true options Hws) as [h Hh].
  assert (∃ o, delivered (node_on_connection options ws request w).2
               = delivered w ++ [(ws, o)]
               ∧ summary (ws, o) = (ws, WebsocketEventType.Open, None, None, ctx)
               ∧ attached OnNode ws ctx (node_on_connection options ws request w).2)
    as (o & Hd & Ho & Hatt).
  { unfold node_on_connection, nodeRuntimeWs, call_wsHandler, native_prop, attached.
    rewrite Hh. run.
    destruct (h _ (sockets w)) as [[[]|err] σ]; cbn.
    - eexists. split; [done|]. split; [done|].
      rewrite Hnil, !lookup_total_insert_eq. by repeat constructor.
    - eexists. split; [done|]. split; [done|]. rewrite Hnil. constructor. }
  destruct (drive_world host options OnNode ws ctx ss Hss _ Hatt) as (x2 & H2 & Hall2).
  exists ((ws, o) :: x2). rewrite H2, Hd, <- app_assoc. split; [done|].
  split; [by cbn; rewrite Ho|]. constructor; [|done].
  intros _. by injection Ho.
Qed.

(** X16. On Node the listeners for "message", "close" and "error" are added after
    the socket handler has been called with Open: when that call throws, they
    are never added, and nothing the engine raises on that socket afterwards
    reaches the socket handler. *)
Theorem node_open_failure_leaves_connection_deaf ws request w err ev :
  listeners w !! ws = None →
  (node_on_connection options ws request w).1 = Throw err →
  let w1 := (node_on_connection options ws request w).2 in
  listeners w1 !! ws = None
  ∧ socket_event options OnNode ws ev w1 = (Ok tt, w1).
Proof.
  intros Hfresh. unfold node_on_connection, nodeRuntimeWs, call_wsHandler, native_prop,
    socket_event, dispatchEvent.
  destruct (wsHandler options) as [h|]; run.
  - destruct (h _ (sockets w)) as [[[]|e] σ]; cbn; [done|]. intros _.
    split; [done|]. by rewrite lookup_total_alt, Hfresh.
  - intros _. split; [done|]. by rewrite lookup_total_alt, Hfresh.
Qed.

(** An event on a connection that is up is dispatched exactly as [dispatched]
    says, and leaves the connection up. *)
Lemma socket_event_dispatched e ws ctx ev h w :
  wsHandler options = Some h →
  wired e ws ctx w →
  let w' := (socket_event options e ws ev w).2 in
  summary <$> delivered w'
  = (summary <$> delivered w)
    ++ option_list ((λ d, (ws, d.1.1, d.1.2, d.2, ctx)) <$> dispatched e ev)
  ∧ wired e ws ctx w'.
Proof.
  intros Hh Hwired.
  assert (∀ l, l_context l = ctx →
    let w' := (for_each (run_listener options ws (event_payload ev)) [l] w).2 in
    summary <$> delivered w'
    = (summary <$> delivered w)
      ++ [(ws, l_event l,
           if l_event l is WebsocketEventType.Message then Some (event_payload ev) else None,
           if l_event l is WebsocketEventType.Error then Some (event_payload ev) else None,
           ctx)]
    ∧ listeners w' = listeners w) as Hone.
  { intros l Hl. cbn [for_each]. rewrite bind_run. unfold run_listener.
    match goal with |- context [call_wsHandler options ws ?o w] =>
      pose proof (call_wsHandler_logged h ws o w Hh) as (Hd & Hls & _) end.
    cbv zeta in *.
    destruct (call_wsHandler options ws _ w) as [[[]|err] w1]; cbn in *;
      rewrite Hd, Hls, fmap_app; cbn; by rewrite Hl. }
  destruct e; unfold wired in *; cbn [socket_event listener_shape] in *.
  - (* Node *)
    unfold dispatchEvent. rewrite bind_run. cbn [get].
    destruct (listeners w !!! ws) as [|l1 [|l2 [|l3 [|]]]] eqn:HL; try discriminate.
    injection Hwired as Ht1 He1 Hc1 Ht2 He2 Hc2 Ht3 He3 Hc3.
    rewrite !filter_cons, filter_nil, Ht1, Ht2, Ht3.
    destruct ev; cbn [event_type dispatched option_list fmap option_fmap option_map];
      repeat case_decide; try done.
    + cbn. rewrite HL. cbn. rewrite Ht1, He1, Hc1, Ht2, He2, Hc2, Ht3, He3, Hc3.
      by rewrite app_nil_r.
    + destruct (Hone l1 Hc1) as [Hd Hls]. cbv zeta in *. rewrite Hd, Hls, HL, He1.
      cbn. by rewrite Ht1, He1, Hc1, Ht2, He2, Hc2, Ht3, He3, Hc3.
    + destruct (Hone l2 Hc2) as [Hd Hls]. cbv zeta in *. rewrite Hd, Hls, HL, He2.
      cbn. by rewrite Ht1, He1, Hc1, Ht2, He2, Hc2, Ht3, He3, Hc3.
    + destruct (Hone l3 Hc3) as [Hd Hls]. cbv zeta in *. rewrite Hd, Hls, HL, He3.
      cbn. by rewrite Ht1, He1, Hc1, Ht2, He2, Hc2, Ht3, He3, Hc3.
  - (* Deno *)
    unfold dispatchEvent. rewrite bind_run. cbn [get].
    destruct (listeners w !!! ws) as [|l1 [|l2 [|l3 [|]]]] eqn:HL; try discriminate.
    injection Hwired as Ht1 He1 Hc1 Ht2 He2 Hc2 Ht3 He3 Hc3.
    rewrite !filter_cons, filter_nil, Ht1, Ht2, Ht3.
    destruct ev; cbn [event_type dispatched option_list fmap option_fmap option_map];
      repeat case_decide; try done.
    + destruct (Hone l1 Hc1) as [Hd Hls]. cbv zeta in *. rewrite Hd, Hls, HL, He1.
      cbn. by rewrite Ht1, He1, Hc1, Ht2, He2, Hc2, Ht3, He3, Hc3.
    + destruct (Hone l2 Hc2) as [Hd Hls]. cbv zeta in *. rewrite Hd, Hls, HL, He2.
      cbn. by rewrite Ht1, He1, Hc1, Ht2, He2, Hc2, Ht3, He3, Hc3.
    + destruct (Hone l3 Hc3) as [Hd Hls]. cbv zeta in *. rewrite Hd, Hls, HL, He3.
      cbn. by rewrite Ht1, He1, Hc1, Ht2, He2, Hc2, Ht3, He3, Hc3.
    + cbn. rewrite HL. cbn. rewrite Ht1, He1, Hc1, Ht2, He2, Hc2, Ht3, He3, Hc3.
      by rewrite app_nil_r.
  - (* Bun *)
    unfold Bun_socket_event, bun_websocket, has_wsHandler. rewrite Hh.
    assert (∀ tag message,
      let w' := (bun_dispatch options ws tag message w).2 in
      summary <$> delivered w'
      = (summary <$> delivered w) ++ [(ws, tag, message, None, ctx)]
      ∧ wsData w' !!! ws = ctx) as Hbun.
    { intros tag message. unfold bun_dispatch. rewrite bind_run. cbn [get].
      match goal with |- context [call_wsHandler options ws ?o w] =>
        pose proof (call_wsHandler_logged h ws o w Hh) as (Hd & _ & Hb & _) end.
      cbv zeta in *. rewrite Hd, Hb, fmap_app. cbn. by rewrite Hwired. }
    destruct ev; cbn; try apply Hbun. by rewrite app_nil_r.
Qed.

Lemma establish_wired e req request ws ctx w :
  has_wsHandler options = true →
  opens host options e request ws →
  listeners w !! ws = None →
  stupidDenoResponseMember w !! req_id request = None →
  (establish host options e req request ws ctx w).1 = Ok tt →
  wired e ws (connection_context e req ctx w)
        (establish host options e req request ws ctx w).2.
Proof.
  intros Hws Hopens Hfresh Hprop.
  assert (listeners w !!! ws = []) as Hnil by (by rewrite lookup_total_alt, Hfresh).
  destruct e; unfold establish, upgradeToWebSocket_on, opens, wired, connection_context
    in *.
  - unfold node_on_connection, nodeRuntimeWs, call_wsHandler, native_prop.
    destruct (has_wsHandler_true options Hws) as [h ->]. run.
    destruct (h _ (sockets w)) as [[[]|err] σ]; cbn; [|done]. intros _.
    by rewrite Hnil, !lookup_total_insert_eq.
  - destruct Hopens as [response Hopens].
    unfold deno_upgradeToWebSocket, Deno_upgradeWebSocket_call,
      defineProperty_stupidDenoResponseMember.
    run. rewrite Hopens. cbn. rewrite Hprop. cbn. intros _.
    by rewrite Hnil, !lookup_total_insert_eq.
  - unfold bun_upgradeToWebSocket, server_upgrade. run. rewrite Hopens. cbn.
    intros _. by rewrite lookup_total_insert_eq.
Qed.

Lemma raised_events_dispatched e ws ctx h evs :
  wsHandler options = Some h →
  ∀ w, wired e ws ctx w →
       summary <$> delivered (drive host options e (Raise ws <$> evs) w)
       = (summary <$> delivered w)
         ++ omap (λ ev, (λ d, (ws, d.1.1, d.1.2, d.2, ctx)) <$> dispatched e ev) evs.
Proof.
  intros Hh. induction evs as [|ev evs IH]; intros w Hwired.
  - cbn. by rewrite app_nil_r.
  - cbn [fmap list_fmap drive stimulate].
    destruct (socket_event_dispatched e ws ctx ev h w Hh Hwired) as [Hd Hwired'].
    cbv zeta in *. rewrite (IH _ Hwired'), Hd, <- app_assoc. f_equal.
    cbn [omap list_omap]. by destruct (dispatched e ev).
Qed.

(** X17. On a connection that is up, every event the engine raises on the socket
    is dispatched to the socket handler exactly once and in order, with the
    tag of its kind, the connection's context, and its payload unchanged: a
    message's in [data], and on Node an error's cause in [error].  The only
    events not dispatched are "error" on Deno and Bun and "open" on Node,
    where Open has gone out when the connection came up. *)
Theorem events_dispatched_once e req request ws ctx evs w :
  has_wsHandler options = true →
  opens host options e request ws →
  listeners w !! ws = None →
  stupidDenoResponseMember w !! req_id request = None →
  (establish host options e req request ws ctx w).1 = Ok tt →
  let w1 := (establish host options e req request ws ctx w).2 in
  summary <$> delivered (drive host options e (Raise ws <$> evs) w1)
  = (summary <$> delivered w1)
    ++ omap (λ ev, (λ d, (ws, d.1.1, d.1.2, d.2, connection_context e req ctx w))
                     <$> dispatched e ev) evs.
Proof.
  intros Hws Hopens Hfresh Hprop Hok.
  destruct (has_wsHandler_true options Hws) as [h Hh].
  apply (raised_events_dispatched e ws (connection_context e req ctx w) h evs Hh).
  by apply establish_wired.
Qed.

(** X18. On Deno with no socket handler configured the upgrade is accepted all
    the same: the capability returns true and the listeners are added, and
    each "open", "message" or "close" the engine then raises on the socket
    throws a TypeError inside its listener, nothing being dispatched. *)
Theorem deno_upgrade_without_wsHandler request ws response ctx ev w :
  has_wsHandler options = false →
  Deno_upgrade host request = Ok (ws, response) →
  listeners w !! ws = None →
  stupidDenoResponseMember w !! req_id request = None →
  let w1 := (deno_upgradeToWebSocket host request ctx w).2 in
  (deno_upgradeToWebSocket host request ctx w).1 = Ok true
  ∧ length (listeners w1 !!! ws) = 3%nat
  ∧ delivered w1 = delivered w
  ∧ socket_event options OnDeno ws ev w1
    = (if ev is EvError _ then Ok tt
       else Throw (TypeError "options.wsHandler is not a function"), w1).
Proof.
  intros Hws Hopens Hfresh Hprop.
  assert (listeners w !!! ws = []) as Hnil by (by rewrite lookup_total_alt, Hfresh).
  assert (wsHandler options = None) as Hnone.
  { unfold has_wsHandler in Hws. by destruct (wsHandler options). }
  unfold deno_upgradeToWebSocket, Deno_upgradeWebSocket_call,
    defineProperty_stupidDenoResponseMember, socket_event, dispatchEvent,
    run_listener, call_wsHandler.
  rewrite Hnone. run. rewrite Hopens. cbn. rewrite Hprop. cbn.
  rewrite Hnil, !lookup_total_insert_eq. cbn.
  repeat split. by destruct ev.
Qed.

End Connections.

Lemma node_context_is_read_at_connection_witness :
  let options := sample_options hello_handler (Some replying_wsHandler) None in
  let ss := [Connect get_message get_request 8%nat (Str "too late");
             Raise 7%nat (EvMessage (Str "Hello WebSocket")); Raise 7%nat EvClose] in
  summary <$> delivered (drive sample_host options OnNode ss
                           (node_on_connection options 7%nat 1%nat empty_world).2)
  = [(7%nat, WebsocketEventType.Open, None, None, Undefined);
     (8%nat, WebsocketEventType.Open, None, None, Undefined);
     (7%nat, WebsocketEventType.Message, Some (Str "Hello WebSocket"), None, Undefined);
     (7%nat, WebsocketEventType.Close, None, None, Undefined)]
  ∧ ∃ extra,
      delivered (drive sample_host options OnNode ss
                   (node_on_connection options 7%nat 1%nat empty_world).2)
      = delivered empty_world ++ extra
      ∧ head (summary <$> extra)
        = Some (7%nat, WebsocketEventType.Open, None, None, Undefined)
      ∧ Forall (carries 7%nat Undefined) extra.
Proof.
  cbv zeta. split; [reflexivity|].
  apply (node_context_is_read_at_connection sample_host
           (sample_options hello_handler (Some replying_wsHandler) None)
           7%nat 1%nat); try reflexivity.
  repeat constructor. discriminate.
Defined.

(** A socket handler that throws when the connection opens. *)
Lemma node_open_failure_leaves_connection_deaf_witness :
  let options := sample_options hello_handler
                   (Some (λ o, if event o is WebsocketEventType.Open
                               then mthrow (Error "not welcome") else mret tt)) None in
  let w1 := (node_on_connection options 7%nat 1%nat empty_world).2 in
  summary <$> delivered w1 = [(7%nat, WebsocketEventType.Open, None, None, Undefined)]
  ∧ listeners w1 !! 7%nat = None
  ∧ socket_event options OnNode 7%nat (EvMessage (Str "anyone?")) w1 = (Ok tt, w1).
Proof.
  cbv zeta. split; [reflexivity|].
  apply (node_open_failure_leaves_connection_deaf
           (sample_options hello_handler
              (Some (λ o, if event o is WebsocketEventType.Open
                          then mthrow (Error "not welcome") else mret tt)) None)
           7%nat 1%nat empty_world (Error "not welcome")); reflexivity.
Defined.

Lemma events_dispatched_once_witness :
  let ctx := Str "test context" in
  let options := sample_options (upgrading_handler ctx) (Some replying_wsHandler) None in
  let evs := [EvOpen; EvMessage (Bytes [x01; x02]); EvError (Str "ECONNRESET"); EvClose] in
  let w1 := (establish sample_host options OnBun get_message get_request 7%nat ctx
               empty_world).2 in
  summary <$> delivered (drive sample_host options OnBun (Raise 7%nat <$> evs) w1)
  = [(7%nat, WebsocketEventType.Open, None, None, ctx);
     (7%nat, WebsocketEventType.Message, Some (Bytes [x01; x02]), None, ctx);
     (7%nat, WebsocketEventType.Close, None, None, ctx)].
Proof.
  cbv zeta.
  rewrite (events_dispatched_once sample_host
             (sample_options (upgrading_handler (Str "test context"))
                (Some replying_wsHandler) None)
             OnBun get_message get_request 7%nat (Str "test context")
             [EvOpen; EvMessage (Bytes [x01; x02]); EvError (Str "ECONNRESET"); EvClose]
             empty_world eq_refl eq_refl eq_refl eq_refl eq_refl).
  reflexivity.
Defined.

Lemma deno_upgrade_without_wsHandler_witness :
  let options := sample_options (upgrading_handler (Str "test context")) None None in
  let w1 := (deno_upgradeToWebSocket sample_host get_request (Str "test context")
               empty_world).2 in
  (deno_upgradeToWebSocket sample_host get_request (Str "test context") empty_world).1
  = Ok true
  ∧ socket_event options OnDeno 7%nat (EvMessage (Str "Hello WebSocket")) w1
    = (Throw (TypeError "options.wsHandler is not a function"), w1).
Proof.
  cbv zeta.
  destruct (deno_upgrade_without_wsHandler sample_host
              (sample_options (upgrading_handler (Str "test context")) None None)
              get_request 7%nat switching_response (Str "test context")
              (EvMessage (Str "Hello WebSocket")) empty_world
              eq_refl eq_refl eq_refl eq_refl) as (Htrue & _ & _ & Hev).
  split; [exact Htrue|exact Hev].
Defined.

(** *** Starting the server *)

Section Starting.
Context (host : Host) (options : IServeOptions).

(** X19. Each engine implementation asks only its own engine: starting a server
    on one runtime makes no call to another runtime's engine, and neither
    does the stop procedure of the server it returns. *)
Theorem serve_stays_with_its_engine e w :
  Forall (λ c, engine_of_call c = Some e)
         (drop (length (calls w)) (calls (serve host options (runtime_of e) w).2))
  ∧ ∀ server w1,
      serve host options (runtime_of e) w = (Ok (Resolved server), w1) →
      Forall (λ c, engine_of_call c = Some e) (callback_calls (srv_close server)).
Proof.
  destruct e; cbn [runtime_of serve].
  - unfold nodeServe, node_listening.
    destruct (has_wsHandler options), (signal options), (Node_address host) as [[? ?]|];
      run; rewrite <- ?app_assoc, drop_app_length.
    all: split; [by repeat constructor|].
    all: intros server w1 [= <- <-] || intros server w1 [=].
    all: by repeat constructor.
  - unfold denoServe. run. rewrite drop_app_length.
    split; [by repeat constructor|]. intros server w1 [= <- <-]. by repeat constructor.
  - unfold bunServe. destruct (signal options); run; rewrite drop_app_length.
    all: split; [by repeat constructor|].
    all: intros server w1 [= <- <-]; by repeat constructor.
Qed.

(** X20. What starting a server does to abort signals: with a signal supplied,
    Bun and Node add one listener to it, after the listeners it already has,
    and leave every other signal alone; without a signal, and on Deno in
    any case, no listener is added anywhere. *)
Theorem serve_abort_listeners e w :
  let w' := (serve host options (runtime_of e) w).2 in
  match signal options, e with
  | Some s, (OnBun | OnNode) =>
      (∃ c, abortListeners w' !! s = Some ((abortListeners w !!! s) ++ [c]))
      ∧ ∀ other, other ≠ s → abortListeners w' !! other = abortListeners w !! other
  | _, _ => abortListeners w' = abortListeners w
  end.
Proof.
  destruct e; cbn [runtime_of serve].
  - unfold nodeServe, node_listening.
    destruct (signal options) as [s|], (has_wsHandler options),
      (Node_address host) as [[? ?]|]; run; try done.
    all: split; [eexists; by rewrite lookup_insert_eq|].
    all: intros other Hne; by rewrite lookup_insert_ne.
  - unfold denoServe. run. by destruct (signal options).
  - unfold bunServe. destruct (signal options) as [s|]; run; [|done].
    split; [eexists; by rewrite lookup_insert_eq|].
    intros other Hne. by rewrite lookup_insert_ne.
Qed.

(** X21. The address on the server handle is the one the engine reports for the
    listener it bound, whatever port and hostname were asked for; Bun and
    Node report it as a "tcp" address. *)
Theorem serve_reports_engine_address e w server w1 :
  serve host options (runtime_of e) w = (Ok (Resolved server), w1) →
  match e with
  | OnDeno => addr server = bound host
  | OnBun =>
      addr server = {| transport := "tcp"; addr_hostname := addr_hostname (bound host);
                       addr_port := addr_port (bound host) |}
  | OnNode =>
      ∃ address port,
        Node_address host = Some (address, port)
        ∧ addr server = {| transport := "tcp"; addr_hostname := address;
                           addr_port := port |}
  end.
Proof.
  destruct e; cbn [runtime_of serve].
  - unfold nodeServe, node_listening.
    destruct (has_wsHandler options), (signal options), (Node_address host) as [[a p]|];
      run; intros [= <- <-] || intros [=]; by exists a, p.
  - unfold denoServe. run. by intros [= <- <-].
  - unfold bunServe. destruct (signal options); run; by intros [= <- <-].
Qed.

(** X22. On Node, when [server.address()] is not an address record, the promise
    [serve] returned never settles: the listener has been started, the
    error "Invalid address" is thrown inside the listen callback, where
    nothing catches it, and no server handle is ever produced. *)
Theorem node_invalid_address_never_resolves w :
  Node_address host = None →
  (serve host options Node w).1 = Ok Pending
  ∧ last (calls (serve host options Node w).2)
    = Some (Node_uncaught (Error "Invalid address"))
  ∧ Node_server_listen (default 0 (port options)) (hostname options)
    ∈ calls (serve host options Node w).2.
Proof.
  intros Haddr. cbn [serve]. unfold nodeServe, node_listening. rewrite Haddr.
  destruct (has_wsHandler options), (signal options); run.
  all: split; [done|]; split; [by rewrite last_snoc|].
  all: rewrite !elem_of_app, !list_elem_of_singleton; tauto.
Qed.

End Starting.

Lemma serve_reports_engine_address_witness :
  let asked := {| handler := hello_handler; port := Some 0; hostname := None;
                  signal := None; tls := None; reusePort := None; wsHandler := None |} in
  let server := {| srv_close := nodeClose false;
                   addr := {| transport := "tcp"; addr_hostname := "::";
                              addr_port := 8083 |};
                   ref := server_ref; unref := server_unref;
                   asyncDispose := nodeClose false; dispose := nodeClose false |} in
  (serve sample_host asked Node empty_world).1 = Ok (Resolved server)
  ∧ ∃ address port,
      Node_address sample_host = Some (address, port)
      ∧ addr server = {| transport := "tcp"; addr_hostname := address;
                         addr_port := port |}.
Proof.
  cbv zeta. split; [reflexivity|].
  apply (serve_reports_engine_address sample_host
           {| handler := hello_handler; port := Some 0; hostname := None;
              signal := None; tls := None; reusePort := None; wsHandler := None |}
           OnNode empty_world _ _ eq_refl).
Defined.

Lemma node_invalid_address_never_resolves_witness :
  let host := {| URL_new := URL_new sample_host;
                 Request_refuses := Request_refuses sample_host;
                 Bun_upgrade := Bun_upgrade sample_host;
                 Deno_upgrade := Deno_upgrade sample_host; bound := bound sample_host;
                 Node_address := None; Node_flushed := Node_flushed sample_host;
                 onError := onError sample_host |} in
  (serve host (sample_options hello_handler None None) Node empty_world).1 = Ok Pending.
Proof.
  cbv zeta.
  apply (node_invalid_address_never_resolves
           {| URL_new := URL_new sample_host;
              Request_refuses := Request_refuses sample_host;
              Bun_upgrade := Bun_upgrade sample_host;
              Deno_upgrade := Deno_upgrade sample_host; bound := bound sample_host;
              Node_address := None; Node_flushed := Node_flushed sample_host;
              onError := onError sample_host |}
           (sample_options hello_handler None None) empty_world eq_refl).
Defined.

(** ** The to-do service *)

(** The run of the example's own client: create, list, read, update, delete. *)
Example todo_example_run :
  let s0 := {| todos := []; console := [] |} in
  let created := todo_handler (todo_request "POST" "/todos"
                   (Ok (BodyValue (Some (AString "Learn TypeScript")) None))
                   "u-1" "2025-01-01T00:00:00.000Z") s0 in
  let listed := todo_handler (todo_request "GET" "/todos" (Throw (Error "no body"))
                   "u-2" "later") created.2 in
  let updated := todo_handler (todo_request "PUT" "/todos/u-1"
                   (Ok (BodyValue (Some (AString "Learn TypeScript and Node.js"))
                                  (Some (ABool true))))
                   "u-3" "later") created.2 in
  let deleted := todo_handler (todo_request "DELETE" "/todos/u-1" (Throw (Error "no body"))
                   "u-4" "later") updated.2 in
  let gone := todo_handler (todo_request "GET" "/todos/u-1" (Throw (Error "no body"))
                   "u-5" "later") deleted.2 in
  fst <$> answered created = Some 201
  ∧ answered listed
    = Some (200, Some (PTodos [{| todo_id := "u-1";
                                 todo_title := Some (AString "Learn TypeScript");
                                 todo_completed := Some (ABool false);
                                 todo_createdAt := "2025-01-01T00:00:00.000Z" |}]))
  ∧ answered updated
    = Some (200, Some (PTodo {| todo_id := "u-1";
                               todo_title := Some (AString "Learn TypeScript and Node.js");
                               todo_completed := Some (ABool true);
                               todo_createdAt := "2025-01-01T00:00:00.000Z" |}))
  ∧ answered deleted = Some (200, Some (PMessage "Todo deleted successfully"))
  ∧ answered gone = Some (404, Some (PError "Todo not found"))
  ∧ todos deleted.2 = [].
Proof. repeat split. Qed.

Section MapFacts.
Context {V : Type}.
Implicit Types (m : list (string * V)) (k : string) (v : V).

Lemma Map_get_set_eq k v m : Map_get k (Map_set k v m) = Some v.
Proof.
  induction m as [|[k' v'] m IH]; cbn.
  - by rewrite decide_True.
  - destruct (decide (k' = k)); cbn; [by rewrite decide_True|by rewrite decide_False].
Qed.

Lemma Map_get_set_ne k k' v m : k ≠ k' → Map_get k' (Map_set k v m) = Map_get k' m.
Proof.
  intros Hne. induction m as [|[k0 v0] m IH]; cbn.
  - by rewrite decide_False.
  - destruct (decide (k0 = k)) as [->|]; cbn.
    + by rewrite !decide_False.
    + by rewrite IH.
Qed.

Lemma Map_get_None k m : Map_get k m = None ↔ k ∉ m.*1.
Proof.
  induction m as [|[k' v'] m IH]; cbn.
  - split; [intros _; apply not_elem_of_nil|done].
  - rewrite not_elem_of_cons. destruct (decide (k' = k)) as [->|].
    + split; [done|]. by intros [? _].
    + rewrite IH. split; [by intros ?|by intros [_ ?]].
Qed.

Lemma Map_get_Some k v m : Map_get k m = Some v → (k, v) ∈ m.
Proof.
  induction m as [|[k' v'] m IH]; cbn; [done|].
  destruct (decide (k' = k)) as [->|]; [intros [= ->]; left|right; auto].
Qed.

Lemma Map_set_present k v m :
  is_Some (Map_get k m) → (Map_set k v m).*1 = m.*1.
Proof.
  induction m as [|[k' v'] m IH]; cbn; [by intros [? ?]|].
  destruct (decide (k' = k)) as [->|]; cbn; [done|]. intros H. by rewrite IH.
Qed.

Lemma Map_set_fresh k v m : Map_get k m = None → Map_set k v m = m ++ [(k, v)].
Proof.
  induction m as [|[k' v'] m IH]; cbn; [done|].
  destruct (decide (k' = k)); [done|]. intros H. by rewrite IH.
Qed.

Lemma Map_set_keys k v m : NoDup m.*1 → NoDup (Map_set k v m).*1.
Proof.
  intros Hnd. destruct (Map_get k m) as [v0|] eqn:Hget.
  - by rewrite Map_set_present.
  - rewrite Map_set_fresh, fmap_app by done. cbn.
    apply NoDup_app. split; [done|]. split; [|apply NoDup_singleton].
    intros k' Hin ->%list_elem_of_singleton. by apply Map_get_None in Hget.
Qed.

Lemma Map_set_Forall (P : string * V → Prop) k v m :
  P (k, v) → Forall P m → Forall P (Map_set k v m).
Proof.
  intros Hkv. induction 1 as [|[k' v'] m Hp Hm IH]; cbn.
  - by repeat constructor.
  - destruct (decide (k' = k)); by constructor.
Qed.

Lemma Map_delete_missing k m : Map_get k m = None → Map_delete k m = (false, m).
Proof.
  induction m as [|[k' v'] m IH]; cbn; [done|].
  destruct (decide (k' = k)); [done|]. intros H. by rewrite IH.
Qed.

Lemma Map_delete_found k m : (Map_delete k m).1 = bool_decide (is_Some (Map_get k m)).
Proof.
  induction m as [|[k' v'] m IH]; cbn [Map_delete Map_get].
  - symmetry. apply bool_decide_eq_false_2. by intros [? ?].
  - destruct (decide (k' = k)); cbn [fst].
    + symmetry. by apply bool_decide_eq_true_2.
    + by destruct (Map_delete k m).
Qed.

Lemma Map_delete_keys k m : (Map_delete k m).2.*1 ⊆ m.*1.
Proof.
  induction m as [|[k' v'] m IH]; cbn; [done|].
  destruct (decide (k' = k)); cbn.
  - intros x Hx. by right.
  - destruct (Map_delete k m) as [found m']. cbn in *.
    intros x [->|Hx]%elem_of_cons; [left|right; by apply IH].
Qed.

Lemma Map_delete_NoDup k m : NoDup m.*1 → NoDup (Map_delete k m).2.*1.
Proof.
  induction m as [|[k' v'] m IH]; cbn; [done|].
  intros [Hnotin Hnd]%NoDup_cons. destruct (decide (k' = k)); cbn; [done|].
  pose proof (Map_delete_keys k m) as Hsub. specialize (IH Hnd).
  destruct (Map_delete k m) as [found m']. cbn in *.
  apply NoDup_cons. split; [|done]. intros Hin. by apply Hnotin, Hsub.
Qed.

Lemma Map_delete_Forall (P : string * V → Prop) k m :
  Forall P m → Forall P (Map_delete k m).2.
Proof.
  induction 1 as [|[k' v'] m Hp Hm IH]; cbn; [done|].
  destruct (decide (k' = k)); cbn; [done|].
  destruct (Map_delete k m) as [found m']. by constructor.
Qed.

Lemma Map_get_delete_eq k m : NoDup m.*1 → Map_get k (Map_delete k m).2 = None.
Proof.
  induction m as [|[k' v'] m IH]; cbn; [done|].
  intros [Hnotin Hnd]%NoDup_cons. destruct (decide (k' = k)) as [->|]; cbn.
  - by apply Map_get_None.
  - specialize (IH Hnd). destruct (Map_delete k m) as [found m']. cbn in *.
    by rewrite decide_False.
Qed.

Lemma Map_get_delete_ne k k' m : k ≠ k' → Map_get k' (Map_delete k m).2 = Map_get k' m.
Proof.
  intros Hne. induction m as [|[k0 v0] m IH]; cbn; [done|].
  destruct (decide (k0 = k)) as [->|]; cbn.
  - by rewrite decide_False.
  - destruct (Map_delete k m) as [found m']. cbn in *. by rewrite IH.
Qed.

End MapFacts.

Lemma split_slash_free s : slash_free s → split_slash s = [s].
Proof.
  induction s as [|c s IH]; cbn [split_slash slash_free]; [done|].
  intros [-> Hs]. by rewrite IH.
Qed.

Lemma split_slash_segment s rest :
  slash_free s → split_slash (s +:+ "/" +:+ rest) = s :: split_slash rest.
Proof.
  induction s as [|c s IH]; cbn [slash_free]; [done|]. intros [Hc Hs].
  change (String c s +:+ "/" +:+ rest) with (String c (s +:+ "/" +:+ rest)).
  cbn [split_slash]. by rewrite Hc, IH.
Qed.

(** The third segment of "/first/id" is [id]. *)
Lemma third_segment first id :
  slash_free first → slash_free id →
  split_slash ("/" +:+ first +:+ "/" +:+ id) !! 2%nat = Some id.
Proof.
  intros Hfirst Hid.
  change ("/" +:+ first +:+ "/" +:+ id) with ("" +:+ "/" +:+ (first +:+ "/" +:+ id)).
  rewrite split_slash_segment by done.
  rewrite split_slash_segment by done. by rewrite split_slash_free.
Qed.


Ltac crud :=
  unfold todo_handler, parseBody, body_prop, of_result, set_todos, jsonResponse in *;
  run.

Section TodoService.

Lemma truthy_nonempty id : id ≠ "" → truthy (Some id) = Some id.
Proof. by destruct id. Qed.

Lemma item_path_differs first id :
  slash_free first → slash_free id → "/" +:+ first +:+ "/" +:+ id ≠ "/todos".
Proof.
  intros Hfirst Hid H. apply (f_equal split_slash) in H.
  change ("/" +:+ first +:+ "/" +:+ id) with ("" +:+ "/" +:+ (first +:+ "/" +:+ id)) in H.
  rewrite !split_slash_segment, split_slash_free in H by done. discriminate H.
Qed.

(** X23. The id is the third piece of the path split at "/", and only the two
    collection routes look at the rest of the path: a request for
    "/<anything>/<id>" is served exactly as the one for "/todos/<id>". *)
Theorem todo_route_ignores_first_segment method first id json uuid now s :
  slash_free first → slash_free id → id ≠ "" → method ≠ "OPTIONS" →
  todo_handler (todo_request method ("/" +:+ first +:+ "/" +:+ id) json uuid now) s
  = todo_handler (todo_request method ("/todos/" +:+ id) json uuid now) s.
Proof.
  intros Hfirst Hid Hne Hm. unfold todo_handler, todo_request.
  cbn [tr_method tr_pathname of_result tr_json tr_uuid tr_now].
  rewrite !(bool_decide_eq_false_2 (method = "OPTIONS")) by done.
  rewrite !bind_run. cbn [mret M_ret].
  pose proof (item_path_differs first id Hfirst Hid) as Hp1.
  assert (slash_free "todos") as Htodos by (by cbn).
  pose proof (item_path_differs "todos" id Htodos Hid) as Hp2.
  change ("/todos/" +:+ id) with ("/" +:+ "todos" +:+ "/" +:+ id).
  rewrite (third_segment first id), (third_segment "todos" id) by done.
  rewrite !(bool_decide_eq_false_2 (_ ∧ "/" +:+ first +:+ "/" +:+ id = "/todos"))
    by (by intros [_ ?]).
  rewrite !(bool_decide_eq_false_2 (_ ∧ "/" +:+ "todos" +:+ "/" +:+ id = "/todos"))
    by (by intros [_ ?]).
  done.
Qed.

(** What the handler comes to on "/todos/<id>". *)
Lemma todo_item_unfold r id s :
  tr_method r ≠ "OPTIONS" → tr_pathname r = Ok ("/todos/" +:+ id) →
  slash_free id → id ≠ "" →
  todo_handler r s
  = try_catch
      (if bool_decide (tr_method r = "GET") then
         s ← get;
         match Map_get id (todos s) with
         | None => mret (jsonResponse (PError "Todo not found") 404)
         | Some todo => mret (jsonResponse (PTodo todo) 200)
         end
       else if bool_decide (tr_method r = "PUT") then
         s ← get;
         match Map_get id (todos s) with
         | None => mret (jsonResponse (PError "Todo not found") 404)
         | Some todo =>
             body ← parseBody r;
             title ← body_prop "title" fst body;
             completed ← body_prop "completed" snd body;
             let updatedTodo :=
               {| todo_id := todo_id todo;
                  todo_title := nullish_or title (todo_title todo);
                  todo_completed := nullish_or completed (todo_completed todo);
                  todo_createdAt := todo_createdAt todo |} in
             modify (set_todos (Map_set id updatedTodo));;
             mret (jsonResponse (PTodo updatedTodo) 200)
         end
       else if bool_decide (tr_method r = "DELETE") then
         s ← get;
         let '(deleted, rest) := Map_delete id (todos s) in
         modify (set_todos (λ _, rest));;
         if deleted then mret (jsonResponse (PMessage "Todo deleted successfully") 200)
         else mret (jsonResponse (PError "Todo not found") 404)
       else mret (jsonResponse (PError "Not found") 404))
      (λ error,
         modify (λ s, {| todos := todos s; console := console s ++ [error] |});;
         mret (jsonResponse (PError "Internal server error") 500)) s.
Proof.
  intros Hm Hpath Hid Hne. unfold todo_handler.
  rewrite (bool_decide_eq_false_2 (tr_method r = "OPTIONS")) by done.
  rewrite Hpath, bind_run. cbn [of_result mret M_ret].
  assert (slash_free "todos") as Htodos by (by cbn).
  pose proof (item_path_differs "todos" id Htodos Hid) as Hp.
  change ("/todos/" +:+ id) with ("/" +:+ "todos" +:+ "/" +:+ id).
  rewrite (third_segment "todos" id), truthy_nonempty by done.
  rewrite !(bool_decide_eq_false_2 (_ ∧ "/" +:+ "todos" +:+ "/" +:+ id = "/todos"))
    by (by intros [_ ?]).
  done.
Qed.

Lemma store_eta s : {| todos := todos s; console := console s |} = s.
Proof. by destruct s. Qed.

(** X24. POST /todos answers 201 with the new to-do, whose [completed] is [false]
    whatever the body says, and stores it under its id; a GET of
    "/todos/<id>" right after answers 200 with the same to-do. *)
Theorem todo_create_then_read title completed uuid now s json' uuid' now' :
  uuid ≠ "" → slash_free uuid →
  let todo := {| todo_id := uuid; todo_title := title;
                 todo_completed := Some (ABool false); todo_createdAt := now |} in
  let created := todo_handler (todo_request "POST" "/todos"
                                 (Ok (BodyValue title completed)) uuid now) s in
  answered created = Some (201, Some (PTodo todo))
  ∧ Map_get uuid (todos created.2) = Some todo
  ∧ answered (todo_handler (todo_request "GET" ("/todos/" +:+ uuid) json' uuid' now')
                created.2)
    = Some (200, Some (PTodo todo)).
Proof.
  intros Hne Hfree. cbv zeta.
  assert (todo_handler (todo_request "POST" "/todos" (Ok (BodyValue title completed))
                          uuid now) s
          = (Ok (jsonResponse
                   (PTodo {| todo_id := uuid; todo_title := title;
                             todo_completed := Some (ABool false);
                             todo_createdAt := now |}) 201),
             {| todos := Map_set uuid
                           {| todo_id := uuid; todo_title := title;
                              todo_completed := Some (ABool false);
                              todo_createdAt := now |} (todos s);
                console := console s |})) as -> by reflexivity.
  split; [done|]. cbn [snd todos]. rewrite Map_get_set_eq. split; [done|].
  rewrite (todo_item_unfold _ uuid) by done.
  unfold answered, try_catch. cbn [todo_request tr_method].
  rewrite bool_decide_eq_true_2 by done. rewrite bind_run. cbn [get todos].
  by rewrite Map_get_set_eq.
Qed.

(** X25. DELETE "/todos/<id>" answers 200 when the id was stored and 404 when it
    was not; afterwards the id is gone, every other to-do is as before, and a
    miss leaves the whole state untouched. *)
Theorem todo_delete id json uuid now s :
  slash_free id → id ≠ "" → NoDup (todos s).*1 →
  let deleted := todo_handler (todo_request "DELETE" ("/todos/" +:+ id) json uuid now) s in
  answered deleted
  = Some (if bool_decide (is_Some (Map_get id (todos s)))
          then (200, Some (PMessage "Todo deleted successfully"))
          else (404, Some (PError "Todo not found")))
  ∧ Map_get id (todos deleted.2) = None
  ∧ (∀ k, k ≠ id → Map_get k (todos deleted.2) = Map_get k (todos s))
  ∧ (Map_get id (todos s) = None → deleted.2 = s).
Proof.
  intros Hid Hne Hnd. cbv zeta. rewrite (todo_item_unfold _ id) by done.
  unfold answered, try_catch. cbn [todo_request tr_method].
  rewrite (bool_decide_eq_false_2 ("DELETE" = "GET")) by done.
  rewrite (bool_decide_eq_false_2 ("DELETE" = "PUT")) by done.
  rewrite (bool_decide_eq_true_2 ("DELETE" = "DELETE")) by done.
  rewrite bind_run. cbn [get].
  pose proof (Map_delete_found id (todos s)) as Hfound.
  pose proof (Map_get_delete_eq id (todos s) Hnd) as Hgone.
  pose proof (λ k (H : k ≠ id), Map_get_delete_ne id k (todos s) (not_eq_sym H)) as Hrest.
  pose proof (Map_delete_missing id (todos s)) as Hmissing.
  destruct (Map_delete id (todos s)) as [found rest]. cbn [fst snd] in *.
  rewrite <- Hfound. destruct found; run; repeat split; try done.
  - intros Hnone. by specialize (Hmissing Hnone).
  - intros Hnone. injection (Hmissing Hnone) as ->. by destruct s.
Qed.

(** X26. PUT "/todos/<id>" on a stored to-do answers 200 with the updated to-do:
    its [id] and [createdAt] are kept, [title] and [completed] come from the
    body unless they are missing or [null]; the to-do stays at its place in
    the map and the others are untouched. *)
Theorem todo_update_keeps_identity id todo title completed uuid now s :
  slash_free id → id ≠ "" → Map_get id (todos s) = Some todo →
  let updated := {| todo_id := todo_id todo;
                    todo_title := nullish_or title (todo_title todo);
                    todo_completed := nullish_or completed (todo_completed todo);
                    todo_createdAt := todo_createdAt todo |} in
  let run := todo_handler (todo_request "PUT" ("/todos/" +:+ id)
                             (Ok (BodyValue title completed)) uuid now) s in
  answered run = Some (200, Some (PTodo updated))
  ∧ Map_get id (todos run.2) = Some updated
  ∧ (todos run.2).*1 = (todos s).*1
  ∧ (∀ k, k ≠ id → Map_get k (todos run.2) = Map_get k (todos s))
  ∧ (title = None ∨ title = Some ANull → todo_title updated = todo_title todo)
  ∧ (completed = None ∨ completed = Some ANull →
     todo_completed updated = todo_completed todo).
Proof.
  intros Hid Hne Hget. cbv zeta. rewrite (todo_item_unfold _ id) by done.
  unfold answered, try_catch, parseBody, try_catch. cbn [todo_request tr_method tr_json].
  rewrite (bool_decide_eq_false_2 ("PUT" = "GET")) by done.
  rewrite (bool_decide_eq_true_2 ("PUT" = "PUT")) by done.
  rewrite bind_run. cbn [get]. rewrite Hget. run.
  rewrite Map_get_set_eq. repeat split; try done.
  - apply Map_set_present. by rewrite Hget.
  - intros k Hk. by apply Map_get_set_ne.
  - by intros [-> | ->].
  - by intros [-> | ->].
Qed.

(** X27. A body that does not parse, or that is [null], makes POST and PUT
    answer 500; the error goes to the console and the map is as before. *)
Theorem todo_unusable_body_is_500 e id todo uuid now s :
  slash_free id → id ≠ "" → Map_get id (todos s) = Some todo →
  let failed := {| todos := todos s; console := console s ++ [Error "Invalid JSON body"] |} in
  let answer := Ok (jsonResponse (PError "Internal server error") 500) in
  todo_handler (todo_request "POST" "/todos" (Throw e) uuid now) s = (answer, failed)
  ∧ todo_handler (todo_request "PUT" ("/todos/" +:+ id) (Throw e) uuid now) s
    = (answer, failed)
  ∧ todo_handler (todo_request "POST" "/todos" (Ok BodyNull) uuid now) s
    = (answer,
       {| todos := todos s;
          console := console s
                     ++ [TypeError "Cannot read properties of null (reading 'title')"] |}).
Proof.
  intros Hid Hne Hget. cbv zeta. split; [reflexivity|]. split; [|reflexivity].
  rewrite (todo_item_unfold _ id) by done.
  unfold try_catch, parseBody, try_catch. cbn [todo_request tr_method tr_json].
  rewrite (bool_decide_eq_false_2 ("PUT" = "GET")) by done.
  rewrite (bool_decide_eq_true_2 ("PUT" = "PUT")) by done.
  rewrite bind_run. cbn [get]. rewrite Hget. by run.
Qed.

(** X28. Once the URL has parsed, the handler never throws: it answers, with one
    of 200, 201, 404 and 500. *)
Theorem todo_handler_always_answers r path s :
  tr_pathname r = Ok path →
  ∃ response s',
    todo_handler r s = (Ok response, s')
    ∧ (jr_status response = 200 ∨ jr_status response = 201
       ∨ jr_status response = 404 ∨ jr_status response = 500).
Proof.
  intros Hpath. crud. rewrite Hpath.
  repeat (case_bool_decide || case_match); cbn.
  all: simplify_eq.
  all: eexists _, _; (split; [reflexivity|]); cbn; tauto.
Qed.

(** X29. A to-do created under a fresh id goes to the end of the map, and the
    list route answers the to-dos in insertion order. *)
Theorem todo_list_in_insertion_order title completed uuid now s json' uuid' now' :
  Map_get uuid (todos s) = None →
  let todo := {| todo_id := uuid; todo_title := title;
                 todo_completed := Some (ABool false); todo_createdAt := now |} in
  let created := todo_handler (todo_request "POST" "/todos"
                                 (Ok (BodyValue title completed)) uuid now) s in
  todos created.2 = todos s ++ [(uuid, todo)]
  ∧ answered (todo_handler (todo_request "GET" "/todos" json' uuid' now') created.2)
    = Some (200, Some (PTodos ((todos s).*2 ++ [todo]))).
Proof.
  intros Hfresh. cbv zeta.
  assert (todo_handler (todo_request "POST" "/todos" (Ok (BodyValue title completed))
                          uuid now) s
          = (Ok (jsonResponse
                   (PTodo {| todo_id := uuid; todo_title := title;
                             todo_completed := Some (ABool false);
                             todo_createdAt := now |}) 201),
             {| todos := Map_set uuid
                           {| todo_id := uuid; todo_title := title;
                              todo_completed := Some (ABool false);
                              todo_createdAt := now |} (todos s);
                console := console s |})) as -> by reflexivity.
  cbn [snd todos]. rewrite Map_set_fresh by done. split; [done|].
  assert (∀ st, todo_handler (todo_request "GET" "/todos" json' uuid' now') st
                = (Ok (jsonResponse (PTodos (todos st).*2) 200), st)) as ->
    by reflexivity.
  unfold answered. cbn. by rewrite fmap_app.
Qed.

(** X30. The handler keeps the map's invariant: every to-do is stored under its
    own [id] (and the keys are distinct), whatever the request. *)
Theorem todo_handler_keeps_store_consistent r s :
  todos_consistent s → todos_consistent (todo_handler r s).2.
Proof.
  intros [Hnd Hall]. unfold todos_consistent. crud.
  repeat (case_bool_decide || case_match); simplify_eq/=; try done.
  all: try (split; [by apply Map_set_keys|by apply Map_set_Forall]).
  - split; [by apply Map_set_keys|]. apply Map_set_Forall; [|done]. cbn.
    match goal with
    | H : Map_get _ _ = Some _ |- _ => apply Map_get_Some in H; rename H into Hin
    end.
    by apply (proj1 (Forall_forall _ _) Hall _ Hin).
  - match goal with
    | H : Map_delete ?k ?m = _ |- _ =>
        pose proof (Map_delete_NoDup k m Hnd) as Hnd';
        pose proof (Map_delete_Forall _ k m Hall) as Hall';
        rewrite H in Hnd', Hall'
    end.
    done.
  - match goal with
    | H : Map_delete ?k ?m = _ |- _ =>
        pose proof (Map_delete_NoDup k m Hnd) as Hnd';
        pose proof (Map_delete_Forall _ k m Hall) as Hall';
        rewrite H in Hnd', Hall'
    end.
    done.
Qed.

End TodoService.

Lemma todo_route_ignores_first_segment_witness :
  todo_handler (todo_request "GET" ("/" +:+ "users" +:+ "/" +:+ "u-1")
                  (Throw (Error "no body")) "u-2" "later") sample_store
  = todo_handler (todo_request "GET" ("/todos/" +:+ "u-1")
                    (Throw (Error "no body")) "u-2" "later") sample_store.
Proof.
  apply (todo_route_ignores_first_segment "GET" "users" "u-1"); by cbn.
Defined.

Lemma todo_create_then_read_witness :
  let todo := {| todo_id := "u-2"; todo_title := Some (AString "Write tests");
                 todo_completed := Some (ABool false); todo_createdAt := "later" |} in
  let created := todo_handler (todo_request "POST" "/todos"
                                 (Ok (BodyValue (Some (AString "Write tests"))
                                                (Some (ABool true))))
                                 "u-2" "later") sample_store in
  answered created = Some (201, Some (PTodo todo))
  ∧ Map_get "u-2" (todos created.2) = Some todo
  ∧ answered (todo_handler (todo_request "GET" ("/todos/" +:+ "u-2")
                              (Throw (Error "no body")) "u-3" "afterwards")
                created.2)
    = Some (200, Some (PTodo todo)).
Proof.
  apply (todo_create_then_read (Some (AString "Write tests")) (Some (ABool true))
           "u-2" "later" sample_store (Throw (Error "no body")) "u-3" "afterwards");
    by cbn.
Defined.

Lemma todo_delete_witness :
  let deleted := todo_handler (todo_request "DELETE" ("/todos/" +:+ "u-1")
                                 (Throw (Error "no body")) "u-2" "later")
                   sample_store in
  answered deleted
  = Some (if bool_decide (is_Some (Map_get "u-1" (todos sample_store)))
          then (200, Some (PMessage "Todo deleted successfully"))
          else (404, Some (PError "Todo not found")))
  ∧ Map_get "u-1" (todos deleted.2) = None
  ∧ (∀ k, k ≠ "u-1" → Map_get k (todos deleted.2) = Map_get k (todos sample_store))
  ∧ (Map_get "u-1" (todos sample_store) = None → deleted.2 = sample_store).
Proof.
  apply (todo_delete "u-1" (Throw (Error "no body")) "u-2" "later" sample_store);
    [by cbn|done|apply NoDup_singleton].
Defined.

Lemma todo_update_keeps_identity_witness :
  let updated := {| todo_id := "u-1"; todo_title := Some (AString "Learn TypeScript");
                    todo_completed := Some (ABool true);
                    todo_createdAt := "2025-01-01T00:00:00.000Z" |} in
  answered (todo_handler (todo_request "PUT" ("/todos/" +:+ "u-1")
                            (Ok (BodyValue (Some ANull) (Some (ABool true))))
                            "u-2" "later") sample_store)
  = Some (200, Some (PTodo updated)).
Proof.
  apply (todo_update_keeps_identity "u-1" sample_todo (Some ANull) (Some (ABool true))
           "u-2" "later" sample_store); [by cbn|done|reflexivity].
Defined.

Lemma todo_unusable_body_is_500_witness :
  todo_handler (todo_request "PUT" ("/todos/" +:+ "u-1")
                  (Throw (Error "Unexpected end of JSON input")) "u-2" "later")
    sample_store
  = (Ok (jsonResponse (PError "Internal server error") 500),
     {| todos := todos sample_store;
        console := console sample_store ++ [Error "Invalid JSON body"] |}).
Proof.
  apply (todo_unusable_body_is_500 (Error "Unexpected end of JSON input")
           "u-1" sample_todo "u-2" "later" sample_store); [by cbn|done|reflexivity].
Defined.

Lemma todo_handler_always_answers_witness :
  ∃ response s',
    todo_handler (todo_request "PATCH" "/todos/u-1" (Ok BodyNull) "u-2" "later")
      sample_store
    = (Ok response, s')
    ∧ (jr_status response = 200 ∨ jr_status response = 201
       ∨ jr_status response = 404 ∨ jr_status response = 500).
Proof.
  apply (todo_handler_always_answers
           (todo_request "PATCH" "/todos/u-1" (Ok BodyNull) "u-2" "later")
           "/todos/u-1" sample_store).
  reflexivity.
Defined.

Lemma todo_list_in_insertion_order_witness :
  let todo := {| todo_id := "u-2"; todo_title := None;
                 todo_completed := Some (ABool false); todo_createdAt := "later" |} in
  let created := todo_handler (todo_request "POST" "/todos" (Ok (BodyValue None None))
                                 "u-2" "later") sample_store in
  todos created.2 = todos sample_store ++ [("u-2", todo)]
  ∧ answered (todo_handler (todo_request "GET" "/todos" (Throw (Error "no body"))
                              "u-3" "afterwards") created.2)
    = Some (200, Some (PTodos ((todos sample_store).*2 ++ [todo]))).
Proof.
  apply (todo_list_in_insertion_order None None "u-2" "later" sample_store
           (Throw (Error "no body")) "u-3" "afterwards").
  reflexivity.
Defined.

Lemma todo_handler_keeps_store_consistent_witness :
  todos_consistent
    (todo_handler (todo_request "PUT" "/todos/u-1"
                     (Ok (BodyValue (Some (AString "Learn Rocq")) None)) "u-2" "later")
       sample_store).2.
Proof.
  apply (todo_handler_keeps_store_consistent
           (todo_request "PUT" "/todos/u-1"
              (Ok (BodyValue (Some (AString "Learn Rocq")) None)) "u-2" "later")
           sample_store).
  split; [apply NoDup_singleton|by repeat constructor].
Defined.
